(** * CDC BRFSS ingestion pipeline (ingest.py): extract, validate, load

    A shallow embedding of [ingest.py].  Python statements are written in a
    small monad that threads the run's state (the trace of observable events
    and the state of the warehouse) and propagates exceptions, [sys.exit] and
    loop divergence.  The HTTP transport and the BigQuery client are external
    capabilities: they are fields of an environment record [Env]. *)

From Stdlib Require Import List String Ascii ZArith Bool Lia.
From Stdlib Require Import Permutation Sorting.Sorted DecimalString.
From Stdlib Require Import Floats.SpecFloat.
Import ListNotations.

Local Open Scope string_scope.
Local Open Scope list_scope.
Local Open Scope Z_scope.

Set Implicit Arguments.

(** ** Values *)

(** A JSON scalar that is not null. *)
Inductive scalar : Type :=
| Str (s : string)
| Num (z : Z).

(** One record of the API response: a JSON object, as a Python dict (ordered
    keys); [None] is JSON null. *)
Definition Dict : Type := list (string * option scalar).

(** Values of the [params] dict of [requests.get]. *)
Inductive param : Type :=
| PInt (z : Z)
| PStr (s : string).

Definition Params : Type := list (string * param).

(** numpy's float64: the values and the arithmetic of IEEE 754 binary64, as
    the Standard Library specifies them ([SpecFloat]: round to nearest, ties
    to even; infinities and NaN). *)
Definition float64 : Type := spec_float.

Definition prec : Z := 53.
Definition emax : Z := 1024.

(** Conversion of an integer to float64. *)
Definition of_int (z : Z) : float64 := binary_normalize prec emax z 0 false.

(** [m / d] rounded to the nearest integer, ties to even ([0 < d]). *)
Definition div_half_even (m d : Z) : Z :=
  let q := m / d in
  let r := m mod d in
  match 2 * r ?= d with
  | Lt => q
  | Gt => q + 1
  | Eq => if Z.even q then q else q + 1
  end.

(** [numpy.rint]: the nearest integral value, ties to even; the sign is kept
    when the result is zero. *)
Definition rint (x : float64) : float64 :=
  match x with
  | S754_finite s m e =>
      if 0 <=? e then x
      else
        let k := div_half_even (Zpos m) (2 ^ (- e)) in
        if k =? 0 then S754_zero s
        else binary_normalize prec emax (if s then - k else k) 0 s
  | _ => x
  end.

Record ReportRow : Type := mkRow {
  column : string;
  null_count : Z;
  null_percentage : float64
}.

Record DataFrame : Type := mkDataFrame {
  columns : list string;
  rows : list Dict
}.

Record Table : Type := mkTable {
  project : string;
  dataset_id : string;
  table_id : string;
  num_rows : Z
}.

(** ** Exceptions, log records and events *)

Inductive Exception : Type :=
| ValidationError (msg : string)
| RequestException (msg : string)
| KeyError (key : string)
| ValueError (msg : string)
| ClientError (msg : string).

Definition str (e : Exception) : string :=
  match e with
  | ValidationError msg => msg
  | RequestException msg => msg
  | KeyError key => ("'" ++ key ++ "'")%string
  | ValueError msg => msg
  | ClientError msg => msg
  end.

Inductive Level : Type := INFO | WARNING | ERROR.

(** The log records that carry run-time values, each with the values its
    f-string interpolates.  Constant banners and progress lines are not
    recorded. *)
Inductive Message : Type :=
| Fetching (offset limit : Z)
| Fetched (n : Z)
| FetchError (e : Exception)
| ReachedMaxRecords (max_records : Z)
| TotalExtracted (n : Z)
| MissingColumns (missing : list string)
| NullReport (null_df : list ReportRow)
| HighNulls (critical_failures : list (string * float64))
| ValidationFailed (e : Exception)
| DatasetExists (dataset_ref : string)
| DatasetCreated (dataset_ref : string)
| Loading (n : Z) (table_ref : string)
| Loaded (n : Z) (table_ref : string)
| NoDataFetched
| ValidationExit
| PipelineCompleted (n : Z) (table : Table)
| PipelineFailed (e : Exception).

Inductive Call : Type :=
| HttpGet (params : Params)
| FromServiceAccountFile (credentials_path : string)
| NewClient (project_id : string)
| GetDataset (dataset_ref : string)
| CreateDataset (dataset_ref location : string)
| LoadTableFromDataframe (df : DataFrame) (table_ref : string)
| JobResult
| GetTable (table_ref : string).

Inductive Event : Type :=
| Log (level : Level) (msg : Message)
| Invoke (c : Call)
| RuntimeWarning.

(** ** The monad *)

Inductive Outcome (A : Type) : Type :=
| Return (a : A)
| Raise (e : Exception)
| SystemExit (code : Z)
| Unfinished.

Arguments Return {A} a.
Arguments Raise {A} e.
Arguments SystemExit {A} code.
Arguments Unfinished {A}.

Section Pipeline.

(** State of the warehouse, as the BigQuery client sees it. *)
Variable W : Type.

Record State : Type := mkState {
  trace : list Event;
  warehouse : W
}.

(** The state after further events, the warehouse untouched. *)
Definition extend (s : State) (evs : list Event) : State :=
  mkState (trace s ++ evs) (warehouse s).

Definition M (A : Type) : Type := State -> Outcome A * State.

Definition ret {A} (a : A) : M A := fun s => (Return a, s).

Definition bind {A B} (m : M A) (k : A -> M B) : M B :=
  fun s =>
    match m s with
    | (Return a, s') => k a s'
    | (Raise e, s') => (Raise e, s')
    | (SystemExit c, s') => (SystemExit c, s')
    | (Unfinished, s') => (Unfinished, s')
    end.

Definition raise {A} (e : Exception) : M A := fun s => (Raise e, s).

Definition sys_exit {A} (code : Z) : M A := fun s => (SystemExit code, s).

Definition unfinished {A} : M A := fun s => (Unfinished, s).

Definition emit (ev : Event) : M unit :=
  fun s => (Return tt, mkState (trace s ++ [ev]) (warehouse s)).

Definition logger (level : Level) (msg : Message) : M unit := emit (Log level msg).

(** [try: body except <class> as e: handler e]; [catches] says which
    exceptions are instances of the class.  [SystemExit] is not an
    [Exception] and passes through every handler of the program. *)
Definition try_except {A} (body : M A) (catches : Exception -> bool)
    (handler : Exception -> M A) : M A :=
  fun s =>
    match body s with
    | (Raise e, s') => if catches e then handler e s' else (Raise e, s')
    | r => r
    end.

Notation "x <- c1 ;; c2" := (bind c1 (fun x => c2))
  (at level 61, c1 at next level, right associativity).
Notation "c1 ;;; c2" := (bind c1 (fun _ => c2))
  (at level 61, right associativity).

(** ** The environment: HTTP transport and BigQuery client *)

Definition Op (A : Type) : Type := W -> (Exception + A) * W.

Record Env : Type := mkEnv {
  requests_get : Params -> Exception + list Dict;
  from_service_account_file : string -> Op unit;
  Client : string -> Op unit;
  get_dataset : string -> Op unit;
  Dataset : string -> Exception + unit;
  create_dataset : string -> string -> Op unit;
  load_table_from_dataframe : DataFrame -> string -> Op unit;
  job_result : Op unit;
  get_table : string -> Op Table
}.

(** [Dataset] is the constructor [bigquery.Dataset(dataset_ref)]: it builds
    a local object without calling the service, and raises on a reference it
    cannot parse. *)

(** A client call: the call is recorded, then the capability runs. *)
Definition invoke {A} (c : Call) (op : Op A) : M A :=
  fun s =>
    let (r, w) := op (warehouse s) in
    let s' := mkState (trace s ++ [Invoke c]) w in
    match r with
    | inr a => (Return a, s')
    | inl e => (Raise e, s')
    end.

(** A local constructor: its result or its exception, nothing recorded. *)
Definition construct {A} (r : Exception + A) : M A :=
  fun s =>
    match r with
    | inr a => (Return a, s)
    | inl e => (Raise e, s)
    end.

Variable env : Env.

(** ** Python helpers *)

Definition len {A} (l : list A) : Z := Z.of_nat (List.length l).

(** [l[:stop]] *)
Definition slice_to {A} (l : list A) (stop : Z) : list A :=
  if 0 <=? stop then firstn (Z.to_nat stop) l
  else firstn (Z.to_nat (len l + stop)) l.

(** Truthiness of an [Optional[int]]. *)
Definition truthy_int (x : option Z) : bool :=
  match x with
  | None => false
  | Some z => negb (z =? 0)
  end.

Definition is_empty {A} (l : list A) : bool :=
  match l with
  | [] => true
  | _ => false
  end.

Fixpoint dict_set {V} (k : string) (v : V) (d : list (string * V)) : list (string * V) :=
  match d with
  | [] => [(k, v)]
  | (k', v') :: d' =>
      if String.eqb k k' then (k, v) :: d' else (k', v') :: dict_set k v d'
  end.

(** [d.update(other)] *)
Definition dict_update {V} (d other : list (string * V)) : list (string * V) :=
  fold_left (fun acc kv => dict_set (fst kv) (snd kv) acc) other d.

Fixpoint dict_get {V} (k : string) (d : list (string * V)) : option V :=
  match d with
  | [] => None
  | (k', v) :: d' => if String.eqb k k' then Some v else dict_get k d'
  end.

Definition str_of_int (n : Z) : string :=
  match n with
  | Zneg p => ("-" ++ NilZero.string_of_uint (Pos.to_uint p))%string
  | _ => NilZero.string_of_uint (N.to_uint (Z.to_N n))
  end.

(** ** Extraction *)

Definition is_RequestException (e : Exception) : bool :=
  match e with
  | RequestException _ => true
  | _ => false
  end.

(** The query parameters of one page request. *)
Definition request_params (limit offset : Z) (filters : Params) : Params :=
  let params := [("$limit", PInt limit); ("$offset", PInt offset)] in
  if is_empty filters then params else dict_update params filters.

Definition fetch_brfss_data (limit offset : Z) (filters : Params) : M (list Dict) :=
  let params := request_params limit offset filters in
  logger INFO (Fetching offset limit) ;;;
  try_except
    (data <- invoke (HttpGet params) (fun w => (requests_get env params, w)) ;;
     logger INFO (Fetched (len data)) ;;;
     ret data)
    is_RequestException
    (fun e => logger ERROR (FetchError e) ;;; raise e).

(** [max_records and n >= max_records]: the cap that has been reached, if any. *)
Definition reached (max_records : option Z) (n : Z) : option Z :=
  match max_records with
  | Some m => if truthy_int max_records && (n >=? m) then Some m else None
  | None => None
  end.

(** The [while True] loop; [fuel] bounds the number of iterations, and
    [Unfinished] is the outcome of a loop that has not ended within it. *)
Fixpoint fetch_loop (fuel : nat) (filters : Params) (max_records : option Z)
    (limit : Z) (all_data : list Dict) (offset : Z) : M (list Dict) :=
  match fuel with
  | O => unfinished
  | S fuel' =>
      data <- fetch_brfss_data limit offset filters ;;
      if is_empty data then ret all_data
      else
        let all_data := all_data ++ data in
        match reached max_records (len all_data) with
        | Some m =>
            let all_data := slice_to all_data m in
            logger INFO (ReachedMaxRecords m) ;;;
            ret all_data
        | None =>
            if len data <? limit then ret all_data
            else fetch_loop fuel' filters max_records limit all_data (offset + limit)
        end
  end.

Definition fetch_all_brfss_data (fuel : nat) (filters : Params)
    (max_records : option Z) : M (list Dict) :=
  let offset := 0 in
  let limit := 10000 in
  all_data <- fetch_loop fuel filters max_records limit [] offset ;;
  logger INFO (TotalExtracted (len all_data)) ;;;
  ret all_data.


(** ** Validation *)

Definition EXPECTED_COLUMNS : list string :=
  ["year"; "locationabbr"; "locationdesc"; "class"; "topic";
   "question"; "data_value"; "sample_size"].

Definition MIN_ROW_COUNT : Z := 100.

Definition MAX_NULL_PERCENTAGE : float64 := of_int 50.

(** [pd.DataFrame(data)] for a list of dicts: the columns are the keys in
    order of first appearance, one row per dict. *)
Definition add_key (cols : list string) (k : string) : list string :=
  if existsb (String.eqb k) cols then cols else cols ++ [k].

Definition pd_DataFrame (data : list Dict) : DataFrame :=
  mkDataFrame
    (fold_left (fun cols r => fold_left add_key (map fst r) cols) data [])
    data.

(** [len(df)] *)
Definition df_len (df : DataFrame) : Z := len (rows df).

(** A cell is NA when the record has no such field or the field is null. *)
Definition isna (col : string) (r : Dict) : bool :=
  match dict_get col r with
  | Some (Some _) => false
  | _ => true
  end.

(** [df[column].isna().sum()] *)
Definition isna_sum (df : DataFrame) (col : string) : Z :=
  len (filter (isna col) (rows df)).

(** [sorted] and [sort_values]: an insertion sort; [leb x y] says that [x] may
    come before [y].  Python's [sorted] is stable; [sort_values] does not say
    in which order it leaves rows with equal keys, and the sort here picks one
    such order: what is proved of a sorted frame holds of every permutation
    that is in order. *)
Fixpoint insert_sorted {A} (leb : A -> A -> bool) (x : A) (l : list A) : list A :=
  match l with
  | [] => [x]
  | y :: l' => if leb x y then x :: l else y :: insert_sorted leb x l'
  end.

Definition sorted {A} (leb : A -> A -> bool) (l : list A) : list A :=
  fold_right (insert_sorted leb) [] l.

Definition mem (x : string) (l : list string) : bool := existsb (String.eqb x) l.

(** [set(l)], kept as a list without repetition. *)
Definition set (l : list string) : list string := nodup string_dec l.

(** [a - b] on sets. *)
Definition set_diff (a b : list string) : list string :=
  filter (fun x => negb (mem x b)) a.

Definition validate_row_count (df : DataFrame) : M unit :=
  let row_count := df_len df in
  if row_count <? MIN_ROW_COUNT then
    raise (ValidationError
             ("Row count validation failed: " ++ str_of_int row_count ++ " rows "
              ++ "(minimum required: " ++ str_of_int MIN_ROW_COUNT ++ ")")%string)
  else ret tt.

Definition validate_schema (df : DataFrame) : M unit :=
  let actual_columns := set (columns df) in
  let expected_columns := set EXPECTED_COLUMNS in
  let missing_columns := set_diff expected_columns actual_columns in
  (if is_empty missing_columns then ret tt
   else logger WARNING (MissingColumns (sorted String.leb missing_columns))) ;;;
  if len actual_columns =? 0 then
    raise (ValidationError "Schema validation failed: DataFrame has no columns")
  else ret tt.

(** numpy arithmetic on the values the null check computes.  A division of
    integers converts both to float64; by zero it gives NaN or an infinity and
    a [RuntimeWarning]. *)
Definition np_true_divide (n d : Z) : M float64 :=
  (if d =? 0 then emit RuntimeWarning else ret tt) ;;;
  ret (SFdiv prec emax (of_int n) (of_int d)).

Definition np_mul (x : float64) (k : Z) : float64 :=
  SFmul prec emax x (of_int k).

(** [round(x, ndigits)] on a numpy float64: scale by the power of ten, [rint],
    scale back. *)
Definition round (x : float64) (ndigits : Z) : float64 :=
  if 0 <=? ndigits then
    SFdiv prec emax (rint (SFmul prec emax x (of_int (10 ^ ndigits))))
          (of_int (10 ^ ndigits))
  else
    SFmul prec emax (rint (SFdiv prec emax x (of_int (10 ^ (- ndigits)))))
          (of_int (10 ^ (- ndigits))).

(** [x > bound] *)
Definition np_gtb (x bound : float64) : bool := SFltb bound x.

(** [x >= y] as [sort_values(ascending=False)] orders keys: NaN sorts last. *)
Definition np_geb (x y : float64) : bool :=
  match y with
  | S754_nan => true
  | _ => SFleb y x
  end.

Definition by_null_percentage_desc (r1 r2 : ReportRow) : bool :=
  np_geb (null_percentage r1) (null_percentage r2).

(** The [for column in df.columns] loop of [validate_null_checks], for column
    labels that are distinct: [df[column]] is then a single column and
    [null_count] a number.  (With a repeated label [df[column]] is a frame and
    the comparison with [MAX_NULL_PERCENTAGE] raises; the properties of the
    loop are stated for frames with [NoDup] columns, which is what
    [pd_DataFrame] builds.) *)
Fixpoint null_loop (df : DataFrame) (cols : list string)
    (null_report : list ReportRow) (critical_failures : list (string * float64))
    : M (list ReportRow * list (string * float64)) :=
  match cols with
  | [] => ret (null_report, critical_failures)
  | column :: cols' =>
      let null_count := isna_sum df column in
      ratio <- np_true_divide null_count (df_len df) ;;
      let null_percentage := np_mul ratio 100 in
      let null_report :=
        null_report ++ [mkRow column null_count (round null_percentage 2)] in
      let critical_failures :=
        if np_gtb null_percentage MAX_NULL_PERCENTAGE
        then critical_failures ++ [(column, null_percentage)]
        else critical_failures in
      null_loop df cols' null_report critical_failures
  end.

Definition validate_null_checks (df : DataFrame) : M unit :=
  res <- null_loop df (columns df) [] [] ;;
  let null_report := fst res in
  let critical_failures := snd res in
  (* pd.DataFrame([]) has no column to sort by *)
  null_df <- (if is_empty null_report then raise (KeyError "null_percentage")
              else ret (sorted by_null_percentage_desc null_report)) ;;
  logger INFO (NullReport null_df) ;;;
  if is_empty critical_failures then ret tt
  else logger WARNING (HighNulls critical_failures).

Definition is_ValidationError (e : Exception) : bool :=
  match e with
  | ValidationError _ => true
  | _ => false
  end.

Definition validate_data (df : DataFrame) : M (bool * list string) :=
  let warnings := [] in
  try_except
    (validate_row_count df ;;;
     validate_schema df ;;;
     validate_null_checks df ;;;
     ret (true, warnings))
    is_ValidationError
    (fun e =>
       logger ERROR (ValidationFailed e) ;;;
       ret (false, [str e])).

(** ** Load *)

Definition is_Exception (e : Exception) : bool := true.

(** The namespace-ensure step of [load_to_bigquery]. *)
Definition ensure_dataset (dataset_ref : string) : M unit :=
  try_except
    (invoke (GetDataset dataset_ref) (get_dataset env dataset_ref) ;;;
     logger INFO (DatasetExists dataset_ref))
    is_Exception
    (fun _ =>
       (* dataset = bigquery.Dataset(dataset_ref); dataset.location = "US" *)
       construct (Dataset env dataset_ref) ;;;
       invoke (CreateDataset dataset_ref "US") (create_dataset env dataset_ref "US") ;;;
       logger INFO (DatasetCreated dataset_ref)).

Definition truthy_str (x : option string) : bool :=
  match x with
  | None => false
  | Some s => negb (String.eqb s "")
  end.

Definition load_to_bigquery (df : DataFrame) (project_id dataset_id table_id : string)
    (credentials_path : option string) : M Table :=
  (match credentials_path with
   | Some path =>
       if truthy_str credentials_path then
         invoke (FromServiceAccountFile path) (from_service_account_file env path) ;;;
         invoke (NewClient project_id) (Client env project_id)
       else invoke (NewClient project_id) (Client env project_id)
   | None => invoke (NewClient project_id) (Client env project_id)
   end) ;;;
  let dataset_ref := (project_id ++ "." ++ dataset_id)%string in
  ensure_dataset dataset_ref ;;;
  let table_ref := (project_id ++ "." ++ dataset_id ++ "." ++ table_id)%string in
  logger INFO (Loading (df_len df) table_ref) ;;;
  invoke (LoadTableFromDataframe df table_ref)
         (load_table_from_dataframe env df table_ref) ;;;
  invoke JobResult (job_result env) ;;;
  table <- invoke (GetTable table_ref) (get_table env table_ref) ;;
  logger INFO (Loaded (num_rows table) table_ref) ;;;
  ret table.

(** ** Driver *)

Definition PROJECT_ID : string := "enduring-broker-483700-j3".
Definition DATASET_ID : string := "candidate_adamdanisovszky_mental_health".
Definition TABLE_ID : string := "raw_cdc_brfss".
Definition SERVICE_ACCOUNT_KEY : string :=
  "enduring-broker-483700-j3@appspot.gserviceaccount.com".

Definition main (fuel : nat) : M unit :=
  try_except
    (let filters : Params := [] in
     data <- fetch_all_brfss_data fuel filters None ;;
     (if is_empty data then logger ERROR NoDataFetched ;;; sys_exit 1
      else ret tt) ;;;
     let df := pd_DataFrame data in
     res <- validate_data df ;;
     let validation_passed := fst res in
     (if negb validation_passed then logger ERROR ValidationExit ;;; sys_exit 1
      else ret tt) ;;;
     table <- load_to_bigquery df PROJECT_ID DATASET_ID TABLE_ID
                (if negb (String.eqb SERVICE_ACCOUNT_KEY
                                     "path/to/your-service-account-key.json")
                 then Some SERVICE_ACCOUNT_KEY else None) ;;
     logger INFO (PipelineCompleted (df_len df) table))
    is_Exception
    (fun e => logger ERROR (PipelineFailed e) ;;; sys_exit 1).

End Pipeline.

Notation "x <- c1 ;; c2" := (bind c1 (fun x => c2))
  (at level 61, c1 at next level, right associativity).
Notation "c1 ;;; c2" := (bind c1 (fun _ => c2))
  (at level 61, right associativity).

(** How [main] ends once [load_to_bigquery] has run: the summary on success,
    the handler of [except Exception] on failure. *)
Definition after_load {W} (df : DataFrame) (r : Outcome Table * State W)
    : Outcome unit * State W :=
  match r with
  | (Return table, s) =>
      (Return tt, extend s [Log INFO (PipelineCompleted (df_len df) table)])
  | (Raise e, s) => (SystemExit 1, extend s [Log ERROR (PipelineFailed e)])
  | (SystemExit code, s) => (SystemExit code, s)
  | (Unfinished, s) => (Unfinished, s)
  end.

(** The status the process ends with, when it ends. *)
Definition exit_status {A} (o : Outcome A) : option Z :=
  match o with
  | Return _ => Some 0
  | SystemExit code => Some code
  | Raise _ => Some 1
  | Unfinished => None
  end.

(** ** Observations on traces *)

(** Sizes of the pages received, in order of arrival. *)
Fixpoint fetched (evs : list Event) : list Z :=
  match evs with
  | [] => []
  | Log INFO (Fetched n) :: evs' => n :: fetched evs'
  | _ :: evs' => fetched evs'
  end.

Definition total (sizes : list Z) : Z := fold_right Z.add 0 sizes.

Definition is_bigquery_call (ev : Event) : bool :=
  match ev with
  | Invoke (HttpGet _) => false
  | Invoke _ => true
  | _ => false
  end.

Definition is_runtime_warning (ev : Event) : bool :=
  match ev with
  | RuntimeWarning => true
  | _ => false
  end.

Definition is_null_report (ev : Event) : bool :=
  match ev with
  | Log INFO (NullReport _) => true
  | _ => false
  end.

(** A computation that only adds events to the trace, none of them a call
    of the BigQuery client, leaves the warehouse alone and does not exit the
    process. *)
Definition http_only {W A} (m : M W A) : Prop :=
  forall s,
    exists evs,
      snd (m s) = extend s evs
      /\ Forall (fun ev => is_bigquery_call ev = false) evs
      /\ forall code, fst (m s) <> SystemExit code.

(** A computation that only adds events to the trace and ends by returning
    or raising. *)
Definition grows {W A} (m : M W A) : Prop :=
  forall s,
    (exists evs, trace (snd (m s)) = trace s ++ evs)
    /\ (forall code, fst (m s) <> SystemExit code)
    /\ fst (m s) <> Unfinished.

(** The events of one extraction that receives [pages], one after the other,
    starting at [offset]. *)
Fixpoint fetch_events (limit : Z) (filters : Params) (offset : Z)
    (pages : list (list Dict)) : list Event :=
  match pages with
  | [] => []
  | p :: pages' =>
      [Log INFO (Fetching offset limit);
       Invoke (HttpGet (request_params limit offset filters));
       Log INFO (Fetched (len p))]
      ++ fetch_events limit filters (offset + limit) pages'
  end.

(** The source answers the requests at [offset], [offset + limit], ... with
    [pages]. *)
Fixpoint serves {W} (env : Env W) (limit : Z) (filters : Params) (offset : Z)
    (pages : list (list Dict)) : Prop :=
  match pages with
  | [] => True
  | p :: pages' =>
      requests_get env (request_params limit offset filters) = inr p
      /\ serves env limit filters (offset + limit) pages'
  end.

(** What the validation steps compute for a frame with at least one row;
    the division is then an ordinary one. *)
Definition null_percentage_of (df : DataFrame) (col : string) : float64 :=
  np_mul (SFdiv prec emax (of_int (isna_sum df col)) (of_int (df_len df))) 100.

Definition report_row (df : DataFrame) (col : string) : ReportRow :=
  mkRow col (isna_sum df col) (round (null_percentage_of df col) 2).

Definition high_null (df : DataFrame) (col : string) : bool :=
  np_gtb (null_percentage_of df col) MAX_NULL_PERCENTAGE.

Definition critical_of (df : DataFrame) (cols : list string) : list (string * float64) :=
  map (fun col => (col, null_percentage_of df col)) (filter (high_null df) cols).

Definition missing_columns (df : DataFrame) : list string :=
  sorted String.leb (set_diff (set EXPECTED_COLUMNS) (set (columns df))).

Definition schema_events (df : DataFrame) : list Event :=
  if is_empty (set_diff (set EXPECTED_COLUMNS) (set (columns df))) then []
  else [Log WARNING (MissingColumns (missing_columns df))].

Definition null_events (df : DataFrame) : list Event :=
  Log INFO (NullReport (sorted by_null_percentage_desc (map (report_row df) (columns df))))
  :: (if is_empty (critical_of df (columns df)) then []
      else [Log WARNING (HighNulls (critical_of df (columns df)))]).

Definition row_count_message (df : DataFrame) : string :=
  ("Row count validation failed: " ++ str_of_int (df_len df)
   ++ " rows (minimum required: 100)")%string.

Definition no_columns_message : string :=
  "Schema validation failed: DataFrame has no columns".

(** Descending order of the percentages of two report rows: the first is
    at least the second in the order of IEEE 754, or the second is NaN. *)
Definition percentage_ge (r1 r2 : ReportRow) : Prop :=
  null_percentage r2 = S754_nan
  \/ SFleb (null_percentage r2) (null_percentage r1) = true.

(** The number of rows of [df] whose cell in column [col] is missing or
    null. *)
Definition null_cells (df : DataFrame) (col : string) : Z :=
  len (filter (fun row => match dict_get col row with
                          | Some (Some _) => false
                          | _ => true
                          end) (rows df)).

(** [(n / rows) * 100] in binary64. *)
Definition float_percentage (n total_rows : Z) : float64 :=
  SFmul prec emax (SFdiv prec emax (of_int n) (of_int total_rows)) (of_int 100).

(** A float64 rounded to two decimals: [rint(x * 100) / 100]. *)
Definition rounded2 (x : float64) : float64 :=
  SFdiv prec emax (rint (SFmul prec emax x (of_int 100))) (of_int 100).

(** The columns whose percentage of null cells is above
    [MAX_NULL_PERCENTAGE], in the order of the frame, each with that
    percentage. *)
Definition high_null_columns (df : DataFrame) : list (string * float64) :=
  map (fun col => (col, float_percentage (null_cells df col) (df_len df)))
      (filter (fun col =>
                 SFltb MAX_NULL_PERCENTAGE
                       (float_percentage (null_cells df col) (df_len df)))
              (columns df)).

(** The order of [SFcompare] read off a key: NaN first, then the sign, the
    exponent and the mantissa. *)
Definition float_key (x : float64) : Z * Z * Z :=
  match x with
  | S754_nan => (-3, 0, 0)
  | S754_infinity true => (-2, 0, 0)
  | S754_finite true m e => (-1, - e, - Zpos m)
  | S754_zero _ => (0, 0, 0)
  | S754_finite false m e => (1, e, Zpos m)
  | S754_infinity false => (2, 0, 0)
  end.

Definition key_le (a b : Z * Z * Z) : Prop :=
  let '(a1, a2, a3) := a in
  let '(b1, b2, b3) := b in
  a1 < b1 \/ (a1 = b1 /\ (a2 < b2 \/ (a2 = b2 /\ a3 <= b3))).

(** Number of page requests sent. *)
Definition requests_made (evs : list Event) : nat :=
  List.length
    (filter (fun ev => match ev with Invoke (HttpGet _) => true | _ => false end) evs).

(** The events of a page request that fails with [e]: the failure is logged
    when it is a [RequestException]. *)
Definition failed_fetch_events (limit : Z) (filters : Params) (offset : Z)
    (e : Exception) : list Event :=
  [Log INFO (Fetching offset limit);
   Invoke (HttpGet (request_params limit offset filters))]
  ++ (if is_RequestException e then [Log ERROR (FetchError e)] else []).

(** A computation that only adds events that satisfy [P] to the trace. *)
Definition emits {W A} (P : Event -> Prop) (m : M W A) : Prop :=
  forall s, exists evs, trace (snd (m s)) = trace s ++ evs /\ Forall P evs.

(** [project.dataset] and [project.dataset.table] *)
Definition dataset_ref_of (project_id dataset_id : string) : string :=
  (project_id ++ "." ++ dataset_id)%string.

Definition table_ref_of (project_id dataset_id table_id : string) : string :=
  (project_id ++ "." ++ dataset_id ++ "." ++ table_id)%string.


(** ** A simulated source and warehouse

    Used to run the pipeline on concrete inputs. *)
Module Sim.

Record Warehouse : Type := mkWarehouse {
  datasets : list string;
  tables : list (string * Z);
  probe_down : bool
}.

Definition param_int (k : string) (p : Params) : Z :=
  match dict_get k p with
  | Some (PInt z) => z
  | _ => 0
  end.

(** The page at index [offset / limit] of [pages]; nothing beyond them. *)
Definition serve_pages (pages : list (list Dict)) (p : Params) : Exception + list Dict :=
  inr (nth (Z.to_nat (param_int "$offset" p / param_int "$limit" p)) pages []).

Definition ok : Op Warehouse unit := fun w => (inr tt, w).

Definition sim_get_dataset (ref : string) : Op Warehouse unit :=
  fun w =>
    if probe_down w then (inl (ClientError "ServiceUnavailable"), w)
    else if mem ref (datasets w) then (inr tt, w)
    else (inl (ClientError "NotFound"), w).

(** A dataset reference is accepted when it has the form project.dataset:
    exactly one dot. *)
Fixpoint dots (ref : string) : nat :=
  match ref with
  | EmptyString => 0
  | String c ref' => ((if Ascii.eqb c "." then 1 else 0) + dots ref')%nat
  end.

Definition sim_Dataset (ref : string) : Exception + unit :=
  if Nat.eqb (dots ref) 1 then inr tt
  else inl (ValueError "dataset_id must be a fully-qualified dataset ID").

Definition sim_create_dataset (ref location : string) : Op Warehouse unit :=
  fun w =>
    if mem ref (datasets w) then (inl (ClientError "Conflict"), w)
    else (inr tt, mkWarehouse (ref :: datasets w) (tables w) (probe_down w)).

Definition sim_load (df : DataFrame) (table_ref : string) : Op Warehouse unit :=
  fun w =>
    (inr tt, mkWarehouse (datasets w) (dict_set table_ref (df_len df) (tables w))
                         (probe_down w)).

Definition sim_get_table (table_ref : string) : Op Warehouse Table :=
  fun w =>
    match dict_get table_ref (tables w) with
    | Some n => (inr (mkTable PROJECT_ID DATASET_ID TABLE_ID n), w)
    | None => (inl (ClientError "NotFound"), w)
    end.

Definition env (pages : list (list Dict)) : Env Warehouse :=
  mkEnv (serve_pages pages) (fun _ => ok) (fun _ => ok)
        sim_get_dataset sim_Dataset sim_create_dataset sim_load ok sim_get_table.

Definition empty : Warehouse := mkWarehouse [] [] false.

Definition start : State Warehouse := mkState [] empty.


Definition r1 : Dict := [("year", Some (Str "2020")); ("topic", None)].
Definition r2 : Dict := [("year", Some (Str "2021")); ("class", Some (Num 3))].

(** 100 records: [topic] is null in all of them, [class] in 60. *)
Definition noisy : list Dict := repeat r1 60 ++ repeat r2 40.

(** A record with every expected column; [v] is its [data_value]. *)
Definition full_row (v : option scalar) : Dict :=
  [("year", Some (Str "2020")); ("locationabbr", Some (Str "US"));
   ("locationdesc", Some (Str "United States")); ("class", Some (Str "Mental Health"));
   ("topic", Some (Str "Depression")); ("question", Some (Str "Ever told"));
   ("data_value", v); ("sample_size", Some (Num 1234))].

(** 160 records: [topic] is null or missing in all of them, [class] is
    missing in 23. *)
Definition uneven : list Dict := repeat r1 23 ++ repeat r2 137.

(** 500 records, [data_value] null in 300 of them. *)
Definition sparse : list Dict :=
  repeat (full_row None) 300 ++ repeat (full_row (Some (Num 17))) 200.

Definition http_calls (evs : list Event) : list Event :=
  filter (fun ev => match ev with Invoke (HttpGet _) => true | _ => false end) evs.

(** A source that answers every request with the same page. *)
Definition env_same_page (page : list Dict) : Env Warehouse :=
  mkEnv (fun _ => inr page) (fun _ => ok) (fun _ => ok)
        sim_get_dataset sim_Dataset sim_create_dataset sim_load ok sim_get_table.

(** A source whose first page is [page] and whose every other request fails. *)
Definition env_failing_after (page : list Dict) (e : Exception) : Env Warehouse :=
  mkEnv (fun p => if param_int "$offset" p =? 0 then inr page else inl e)
        (fun _ => ok) (fun _ => ok)
        sim_get_dataset sim_Dataset sim_create_dataset sim_load ok sim_get_table.

(** A client that can neither find nor create a dataset. *)
Definition env_no_dataset : Env Warehouse :=
  mkEnv (serve_pages []) (fun _ => ok) (fun _ => ok)
        (fun _ w => (inl (ClientError "NotFound"), w))
        sim_Dataset
        (fun _ _ w => (inl (ClientError "Forbidden"), w))
        sim_load ok sim_get_table.

End Sim.

(** * Properties *)

Arguments null_percentage_of : simpl never.
Arguments report_row : simpl never.
Arguments np_gtb : simpl never.
Arguments round : simpl never.
Arguments np_mul : simpl never.
Arguments sorted : simpl never.
Arguments critical_of : simpl never.

Ltac run := unfold bind, ret, raise, sys_exit, logger, emit, invoke, try_except, extend; simpl.

Lemma extend_extend {W} (s : State W) (evs1 evs2 : list Event) :
  extend (extend s evs1) evs2 = extend s (evs1 ++ evs2).
Proof. unfold extend. simpl. now rewrite app_assoc. Qed.

Lemma extend_nil {W} (s : State W) : extend s [] = s.
Proof. destruct s. unfold extend. simpl. now rewrite app_nil_r. Qed.

Lemma fetched_app (evs1 evs2 : list Event) :
  fetched (evs1 ++ evs2) = fetched evs1 ++ fetched evs2.
Proof.
  induction evs1 as [|ev evs1 IH]; simpl; [reflexivity|].
  destruct ev as [[] [] | |]; simpl; rewrite ?IH; reflexivity.
Qed.

Lemma fetched_fetch_events (limit : Z) (filters : Params) (pages : list (list Dict)) :
  forall offset, fetched (fetch_events limit filters offset pages) = map len pages.
Proof.
  induction pages as [|p pages IH]; intros offset; simpl; [reflexivity|].
  now rewrite IH.
Qed.

Lemma total_app (l1 l2 : list Z) : total (l1 ++ l2) = total l1 + total l2.
Proof.
  unfold total. induction l1 as [|x l1 IH]; simpl; lia.
Qed.

Lemma len_app {A} (l1 l2 : list A) : len (l1 ++ l2) = len l1 + len l2.
Proof. unfold len. rewrite length_app. lia. Qed.

Lemma len_concat {A} (ls : list (list A)) : len (List.concat ls) = total (map len ls).
Proof.
  induction ls as [|l ls IH]; simpl; [reflexivity|].
  rewrite len_app, IH. reflexivity.
Qed.

Lemma len_nonneg {A} (l : list A) : 0 <= len l.
Proof. unfold len. lia. Qed.

Lemma is_empty_len {A} (l : list A) : is_empty l = (len l =? 0).
Proof. destruct l; reflexivity. Qed.

(** ** Extraction *)

Section Extraction.

Variable W : Type.
Variable env : Env W.

Lemma fetch_brfss_data_ok (limit offset : Z) (filters : Params) (data : list Dict)
    (s : State W) :
  requests_get env (request_params limit offset filters) = inr data ->
  fetch_brfss_data env limit offset filters s
  = (Return data, extend s (fetch_events limit filters offset [data])).
Proof.
  intros Hget. unfold fetch_brfss_data. run. rewrite Hget. simpl.
  rewrite <- !app_assoc. reflexivity.
Qed.

Lemma fetch_brfss_data_err (limit offset : Z) (filters : Params) (e : Exception)
    (s : State W) :
  requests_get env (request_params limit offset filters) = inl e ->
  exists evs,
    fetch_brfss_data env limit offset filters s = (Raise e, extend s evs)
    /\ fetched evs = [].
Proof.
  intros Hget. unfold fetch_brfss_data. run. rewrite Hget. simpl.
  destruct (is_RequestException e); simpl; rewrite <- !app_assoc; simpl;
    eexists; split; try reflexivity; reflexivity.
Qed.

(** One iteration of the loop, by the stop condition that fires. *)
Lemma fetch_loop_empty_page (fuel : nat) (filters : Params) (max_records : option Z)
    (limit : Z) (all_data : list Dict) (offset : Z) (s : State W) :
  requests_get env (request_params limit offset filters) = inr [] ->
  fetch_loop env (S fuel) filters max_records limit all_data offset s
  = (Return all_data, extend s (fetch_events limit filters offset [[]])).
Proof.
  intros Hget. simpl. unfold bind at 1. rewrite (fetch_brfss_data_ok _ _ _ _ Hget).
  reflexivity.
Qed.

Lemma fetch_loop_cap_reached (fuel : nat) (filters : Params) (max_records : option Z)
    (limit : Z) (all_data data : list Dict) (offset m : Z) (s : State W) :
  requests_get env (request_params limit offset filters) = inr data ->
  data <> [] ->
  reached max_records (len (all_data ++ data)) = Some m ->
  fetch_loop env (S fuel) filters max_records limit all_data offset s
  = (Return (slice_to (all_data ++ data) m),
     extend s (fetch_events limit filters offset [data]
               ++ [Log INFO (ReachedMaxRecords m)])).
Proof.
  intros Hget Hne Hcap. simpl. unfold bind at 1.
  rewrite (fetch_brfss_data_ok _ _ _ _ Hget).
  destruct data as [|d data]; [congruence|]. simpl is_empty. cbv iota.
  rewrite Hcap. run. rewrite <- !app_assoc. reflexivity.
Qed.

Lemma fetch_loop_short_page (fuel : nat) (filters : Params) (max_records : option Z)
    (limit : Z) (all_data data : list Dict) (offset : Z) (s : State W) :
  requests_get env (request_params limit offset filters) = inr data ->
  data <> [] ->
  reached max_records (len (all_data ++ data)) = None ->
  len data < limit ->
  fetch_loop env (S fuel) filters max_records limit all_data offset s
  = (Return (all_data ++ data), extend s (fetch_events limit filters offset [data])).
Proof.
  intros Hget Hne Hcap Hshort. simpl. unfold bind at 1.
  rewrite (fetch_brfss_data_ok _ _ _ _ Hget).
  destruct data as [|d data]; [congruence|]. simpl is_empty. cbv iota.
  rewrite Hcap. apply Z.ltb_lt in Hshort. rewrite Hshort. reflexivity.
Qed.

Lemma fetch_loop_continue (fuel : nat) (filters : Params) (max_records : option Z)
    (limit : Z) (all_data data : list Dict) (offset : Z) (s : State W) :
  requests_get env (request_params limit offset filters) = inr data ->
  data <> [] ->
  reached max_records (len (all_data ++ data)) = None ->
  limit <= len data ->
  fetch_loop env (S fuel) filters max_records limit all_data offset s
  = fetch_loop env fuel filters max_records limit (all_data ++ data) (offset + limit)
      (extend s (fetch_events limit filters offset [data])).
Proof.
  intros Hget Hne Hcap Hfull. simpl. unfold bind at 1.
  rewrite (fetch_brfss_data_ok _ _ _ _ Hget).
  destruct data as [|d data]; [congruence|]. simpl is_empty. cbv iota.
  rewrite Hcap. apply Z.ltb_ge in Hfull. rewrite Hfull. reflexivity.
Qed.

Lemma fetch_loop_error (fuel : nat) (filters : Params) (max_records : option Z)
    (limit : Z) (all_data : list Dict) (offset : Z) (e : Exception) (s : State W) :
  requests_get env (request_params limit offset filters) = inl e ->
  exists evs,
    fetch_loop env (S fuel) filters max_records limit all_data offset s
    = (Raise e, extend s evs)
    /\ fetched evs = [].
Proof.
  intros Hget. destruct (fetch_brfss_data_err limit offset filters s Hget) as [evs [H1 H2]].
  exists evs. split; [|exact H2]. simpl. unfold bind at 1. rewrite H1. reflexivity.
Qed.

(** Without an effective cap the loop ends at the first short page and
    returns the concatenation of the pages it received. *)
Lemma fetch_loop_uncapped (filters : Params) (max_records : option Z) (limit : Z)
    (last_page : list Dict) (init : list (list Dict)) :
  (forall n, reached max_records n = None) ->
  len last_page < limit ->
  forall (fuel : nat) (all_data : list Dict) (offset : Z) (s : State W),
    serves env limit filters offset (init ++ [last_page]) ->
    (List.length init < fuel)%nat ->
    exists received rest,
      init ++ [last_page] = received ++ rest
      /\ received <> []
      /\ fetch_loop env fuel filters max_records limit all_data offset s
         = (Return (all_data ++ List.concat received),
            extend s (fetch_events limit filters offset received)).
Proof.
  intros Hcap Hshort.
  induction init as [|p init IH]; intros fuel all_data offset s Hserves Hfuel;
    (destruct fuel as [|fuel]; [simpl in Hfuel; lia|]).
  - destruct Hserves as [Hget _].
    exists [last_page], []. split; [reflexivity|]. split; [discriminate|].
    destruct last_page as [|d l] eqn:E.
    + rewrite (@fetch_loop_empty_page _ _ _ _ _ _ _ Hget). simpl.
      now rewrite app_nil_r.
    + rewrite (@fetch_loop_short_page fuel filters max_records limit all_data _ offset s Hget);
        [simpl; now rewrite app_nil_r | discriminate | apply Hcap | exact Hshort].
  - destruct Hserves as [Hget Hserves]. simpl in Hfuel.
    destruct p as [|d l] eqn:E.
    + exists [[]], (init ++ [last_page]). split; [reflexivity|].
      split; [discriminate|].
      rewrite (@fetch_loop_empty_page _ _ _ _ _ _ _ Hget). simpl.
      now rewrite app_nil_r.
    + rewrite <- E in *. assert (Hne : p <> []) by (rewrite E; discriminate).
      destruct (Z_lt_le_dec (len p) limit) as [Hlt|Hge].
      * exists [p], (init ++ [last_page]). split; [reflexivity|].
        split; [discriminate|].
        rewrite (@fetch_loop_short_page fuel filters max_records limit all_data _ offset s Hget);
          [simpl; now rewrite app_nil_r | exact Hne | apply Hcap | exact Hlt].
      * destruct (IH fuel (all_data ++ p) (offset + limit)
                    (extend s (fetch_events limit filters offset [p])) Hserves)
          as [received [rest [Hsplit [Hrec Hrun]]]]; [lia|].
        exists (p :: received), rest. split; [simpl; now rewrite Hsplit|].
        split; [discriminate|].
        rewrite (@fetch_loop_continue fuel filters max_records limit all_data _ offset s Hget);
          [|exact Hne | apply Hcap | exact Hge].
        rewrite Hrun, extend_extend. simpl. now rewrite <- app_assoc.
Qed.

Lemma reached_positive (m n : Z) :
  0 < m -> reached (Some m) n = if n >=? m then Some m else None.
Proof.
  intros Hm. unfold reached, truthy_int.
  replace (m =? 0) with false by (symmetry; apply Z.eqb_neq; lia). reflexivity.
Qed.

Lemma len_slice_to {A} (l : list A) (m : Z) :
  0 <= m <= len l -> len (slice_to l m) = m.
Proof.
  intros [H0 Hm]. unfold slice_to. replace (0 <=? m) with true by (symmetry; now apply Z.leb_le).
  unfold len in *. rewrite length_firstn. lia.
Qed.

(** With a positive cap the loop always ends: every iteration that goes on
    has added a full page. *)
Lemma fetch_loop_capped (filters : Params) (limit m : Z) :
  0 < m -> 0 < limit ->
  forall (fuel : nat) (all_data : list Dict) (offset : Z) (s : State W),
    len all_data < m ->
    m - len all_data <= Z.of_nat fuel * limit ->
    exists evs,
      snd (fetch_loop env fuel filters (Some m) limit all_data offset s) = extend s evs
      /\ match fst (fetch_loop env fuel filters (Some m) limit all_data offset s) with
         | Return l =>
             exists sizes n,
               fetched evs = sizes ++ [n]
               /\ ((len l = m
                    /\ len all_data + total sizes < m <= len all_data + total sizes + n)
                   \/ (len l < m /\ n < limit
                       /\ len l = len all_data + total sizes + n))
         | Raise e => exists params, requests_get env params = inl e
         | SystemExit _ => False
         | Unfinished => False
         end.
Proof.
  intros Hm Hlimit.
  induction fuel as [|fuel IH]; intros all_data offset s Hacc Hfuel; [simpl in Hfuel; lia|].
  destruct (requests_get env (request_params limit offset filters)) as [e|data] eqn:Hget.
  - destruct (@fetch_loop_error fuel filters (Some m) limit all_data offset _ s Hget) as [evs [Hrun _]].
    exists evs. rewrite Hrun. simpl. split; [reflexivity|]. eauto.
  - destruct data as [|d l] eqn:E.
    + rewrite (@fetch_loop_empty_page _ _ _ _ _ _ _ Hget). simpl fst. simpl snd.
      eexists. split; [reflexivity|]. exists [], 0. simpl.
      split; [reflexivity|]. right. unfold total. simpl. lia.
    + rewrite <- E in *. assert (Hne : data <> []) by (rewrite E; discriminate).
      pose proof (@reached_positive m (len (all_data ++ data)) Hm) as Hreached.
      pose proof (len_nonneg data) as Hd. pose proof (len_app all_data data) as Happ.
      destruct (len (all_data ++ data) >=? m) eqn:Hcmp.
      * rewrite (@fetch_loop_cap_reached fuel filters (Some m) limit all_data _ offset m s Hget Hne Hreached).
        simpl fst. simpl snd. eexists. split; [reflexivity|].
        exists [], (len data). simpl. split; [reflexivity|].
        left. apply Z.geb_le in Hcmp. unfold total. simpl.
        rewrite len_slice_to; lia.
      * assert (Hlt : len (all_data ++ data) < m)
          by (rewrite Z.geb_leb in Hcmp; apply Z.leb_gt in Hcmp; lia).
        destruct (Z_lt_le_dec (len data) limit) as [Hshort|Hfull].
        -- rewrite (@fetch_loop_short_page fuel filters (Some m) limit all_data _ offset s Hget Hne Hreached Hshort).
           simpl fst. simpl snd. eexists. split; [reflexivity|].
           exists [], (len data). simpl. split; [reflexivity|].
           right. unfold total. simpl. lia.
        -- rewrite (@fetch_loop_continue fuel filters (Some m) limit all_data _ offset s Hget Hne Hreached Hfull).
           destruct (IH (all_data ++ data) (offset + limit)
                        (extend s (fetch_events limit filters offset [data])) Hlt)
             as [evs [Hsnd Hfst]]; [nia|].
           exists (fetch_events limit filters offset [data] ++ evs).
           rewrite Hsnd, extend_extend. split; [reflexivity|].
           destruct (fst (fetch_loop env fuel filters (Some m) limit (all_data ++ data)
                            (offset + limit)
                            (extend s (fetch_events limit filters offset [data]))));
             try exact Hfst.
           destruct Hfst as [sizes [n [Hf Hcases]]].
           exists (len data :: sizes), n. rewrite fetched_app, Hf. simpl.
           split; [reflexivity|]. unfold total in *. simpl. lia.
Qed.

End Extraction.

Section ExtractAll.

Variable W : Type.
Variable env : Env W.

Lemma fetch_all_of_loop (fuel : nat) (filters : Params) (max_records : option Z)
    (s : State W) :
  fetch_all_brfss_data env fuel filters max_records s
  = match fetch_loop env fuel filters max_records 10000 [] 0 s with
    | (Return all_data, s') =>
        (Return all_data, extend s' [Log INFO (TotalExtracted (len all_data))])
    | r => r
    end.
Proof.
  unfold fetch_all_brfss_data. run.
  destruct (fetch_loop env fuel filters max_records 10000 [] 0 s) as [[l|e|c|] s'];
    reflexivity.
Qed.

Lemma reached_zero (n : Z) : reached (Some 0) n = None.
Proof. reflexivity. Qed.

Lemma fetch_loop_zero_cap (filters : Params) (limit : Z) :
  forall (fuel : nat) (all_data : list Dict) (offset : Z) (s : State W),
    fetch_loop env fuel filters (Some 0) limit all_data offset s
    = fetch_loop env fuel filters None limit all_data offset s.
Proof.
  induction fuel as [|fuel IH]; intros all_data offset s; [reflexivity|].
  simpl. unfold bind.
  destruct (fetch_brfss_data env limit offset filters s) as [[data|e|c|] s'];
    try reflexivity.
  destruct (is_empty data); [reflexivity|].
  destruct (len data <? limit); [reflexivity|]. apply IH.
Qed.

(** C1 (amended): for every positive [max_records] and enough iterations,
    extraction ends; when it returns a list, the list has at most
    [max_records] records; it has exactly [max_records], cut as soon as the
    records received reach that number, unless the last page received was
    shorter than the page size, in which case every record received is
    returned.  The only other outcome is the exception of a failed request. *)
Theorem max_records_positive_cap (filters : Params) (m : Z) (fuel : nat) (s : State W) :
  0 < m ->
  m <= Z.of_nat fuel * 10000 ->
  exists evs,
    snd (fetch_all_brfss_data env fuel filters (Some m) s) = extend s evs
    /\ match fst (fetch_all_brfss_data env fuel filters (Some m) s) with
       | Return l =>
           len l <= m
           /\ exists sizes n,
               fetched evs = sizes ++ [n]
               /\ ((len l = m /\ total sizes < m <= total sizes + n)
                   \/ (len l < m /\ n < 10000 /\ len l = total sizes + n))
       | Raise e => exists params, requests_get env params = inl e
       | SystemExit _ => False
       | Unfinished => False
       end.
Proof.
  intros Hm Hfuel. rewrite fetch_all_of_loop.
  destruct (@fetch_loop_capped W env filters 10000 m Hm ltac:(lia) fuel [] 0 s)
    as [evs [Hsnd Hfst]]; [unfold len; simpl; lia | unfold len; simpl; lia |].
  destruct (fetch_loop env fuel filters (Some m) 10000 [] 0 s) as [[l|e|c|] s'];
    simpl in Hsnd, Hfst; subst s'; try contradiction.
  - exists (evs ++ [Log INFO (TotalExtracted (len l))]).
    simpl. rewrite extend_extend. split; [reflexivity|].
    destruct Hfst as [sizes [n [Hf Hcases]]].
    change (len []) with 0 in Hcases.
    split; [lia|]. exists sizes, n. rewrite fetched_app, Hf. simpl.
    rewrite app_nil_r. split; [reflexivity|]. lia.
  - exists evs. simpl. split; [reflexivity|exact Hfst].
Qed.

(** C4: when the source answers with a sequence of pages whose final page is
    shorter than the page size, extraction (without cap) ends and returns the
    concatenation of the pages it received, whose size is the sum of their
    sizes; and in one iteration an empty page stops the loop first, then a
    reached cap, then a short page. *)
Theorem extraction_ends_at_short_page (filters : Params) :
  (forall (init : list (list Dict)) (last_page : list Dict) (fuel : nat) (s : State W),
      serves env 10000 filters 0 (init ++ [last_page]) ->
      len last_page < 10000 ->
      (List.length init < fuel)%nat ->
      exists received rest all_data,
        init ++ [last_page] = received ++ rest
        /\ received <> []
        /\ fetch_all_brfss_data env fuel filters None s
           = (Return all_data,
              extend s (fetch_events 10000 filters 0 received
                        ++ [Log INFO (TotalExtracted (len all_data))]))
        /\ all_data = List.concat received
        /\ len all_data = total (map len received))
  /\ (forall max_records all_data offset fuel' s0,
        requests_get env (request_params 10000 offset filters) = inr [] ->
        fetch_loop env (S fuel') filters max_records 10000 all_data offset s0
        = (Return all_data, extend s0 (fetch_events 10000 filters offset [[]])))
  /\ (forall max_records all_data offset fuel' s0 data m,
        requests_get env (request_params 10000 offset filters) = inr data ->
        data <> [] ->
        reached max_records (len (all_data ++ data)) = Some m ->
        fetch_loop env (S fuel') filters max_records 10000 all_data offset s0
        = (Return (slice_to (all_data ++ data) m),
           extend s0 (fetch_events 10000 filters offset [data]
                      ++ [Log INFO (ReachedMaxRecords m)])))
  /\ (forall max_records all_data offset fuel' s0 data,
        requests_get env (request_params 10000 offset filters) = inr data ->
        data <> [] ->
        reached max_records (len (all_data ++ data)) = None ->
        len data < 10000 ->
        fetch_loop env (S fuel') filters max_records 10000 all_data offset s0
        = (Return (all_data ++ data),
           extend s0 (fetch_events 10000 filters offset [data])))
  /\ (forall max_records all_data offset fuel' s0 data,
        requests_get env (request_params 10000 offset filters) = inr data ->
        data <> [] ->
        reached max_records (len (all_data ++ data)) = None ->
        10000 <= len data ->
        fetch_loop env (S fuel') filters max_records 10000 all_data offset s0
        = fetch_loop env fuel' filters max_records 10000 (all_data ++ data)
            (offset + 10000) (extend s0 (fetch_events 10000 filters offset [data]))).
Proof.
  split; [intros init last_page fuel s Hserves Hshort Hfuel | repeat split; intros].
  - destruct (@fetch_loop_uncapped W env filters None 10000 last_page init
                (fun _ => eq_refl) Hshort fuel [] 0 s Hserves Hfuel)
      as [received [rest [Hsplit [Hne Hrun]]]].
    exists received, rest, (List.concat received).
    rewrite fetch_all_of_loop, Hrun, extend_extend. simpl.
    repeat split; auto. apply len_concat.
  - now apply fetch_loop_empty_page.
  - now apply fetch_loop_cap_reached.
  - now apply fetch_loop_short_page.
  - now apply fetch_loop_continue.
Qed.

(** C9: a cap of 0 is no cap: extraction with [max_records = 0] is extraction
    with [max_records = None], and on a source whose pages end with a short
    page it returns every record received. *)
Theorem max_records_zero_is_no_cap (filters : Params) (fuel : nat) (s : State W) :
  fetch_all_brfss_data env fuel filters (Some 0) s
  = fetch_all_brfss_data env fuel filters None s
  /\ forall init last_page,
      serves env 10000 filters 0 (init ++ [last_page]) ->
      len last_page < 10000 ->
      (List.length init < fuel)%nat ->
      exists received rest,
        init ++ [last_page] = received ++ rest
        /\ received <> []
        /\ fst (fetch_all_brfss_data env fuel filters (Some 0) s)
           = Return (List.concat received).
Proof.
  assert (Heq : fetch_all_brfss_data env fuel filters (Some 0) s
                = fetch_all_brfss_data env fuel filters None s).
  { rewrite !fetch_all_of_loop. now rewrite fetch_loop_zero_cap. }
  split; [exact Heq|].
  intros init last_page Hserves Hshort Hfuel.
  destruct (@fetch_loop_uncapped W env filters None 10000 last_page init
              (fun _ => eq_refl) Hshort fuel [] 0 s Hserves Hfuel)
    as [received [rest [Hsplit [Hne Hrun]]]].
  exists received, rest. rewrite Heq, fetch_all_of_loop, Hrun.
  repeat split; auto.
Qed.

End ExtractAll.

(** ** Sorting and sets *)

Section Sorting.

Variable A : Type.
Variable leb : A -> A -> bool.

Lemma insert_sorted_perm (x : A) (l : list A) :
  Permutation (insert_sorted leb x l) (x :: l).
Proof.
  induction l as [|y l IH]; simpl; [reflexivity|].
  destruct (leb x y); [reflexivity|].
  rewrite IH. apply perm_swap.
Qed.

Lemma sorted_perm (l : list A) : Permutation (sorted leb l) l.
Proof.
  unfold sorted. induction l as [|x l IH]; simpl; [reflexivity|].
  rewrite insert_sorted_perm. now constructor.
Qed.

Hypothesis leb_total : forall x y, leb x y = true \/ leb y x = true.
Hypothesis leb_trans : forall x y z, leb x y = true -> leb y z = true -> leb x z = true.

Lemma insert_sorted_sorted (x : A) (l : list A) :
  StronglySorted (fun a b => leb a b = true) l ->
  StronglySorted (fun a b => leb a b = true) (insert_sorted leb x l).
Proof.
  induction 1 as [|y l Hl IH Hy]; simpl.
  - repeat constructor.
  - destruct (leb x y) eqn:Hxy.
    + constructor; [now constructor|].
      constructor; [exact Hxy|].
      rewrite Forall_forall in *. intros z Hz. eapply leb_trans; eauto.
    + constructor; [exact IH|].
      rewrite Forall_forall in *. intros z Hz.
      apply (Permutation_in _ (insert_sorted_perm x l)) in Hz.
      destruct Hz as [<-|Hz]; [|now apply Hy].
      destruct (leb_total x y) as [H|H]; congruence.
Qed.

Lemma sorted_sorted (l : list A) :
  StronglySorted (fun a b => leb a b = true) (sorted leb l).
Proof.
  unfold sorted. induction l as [|x l IH]; simpl; [constructor|].
  now apply insert_sorted_sorted.
Qed.

End Sorting.

Lemma mem_In (x : string) (l : list string) : mem x l = true <-> In x l.
Proof.
  unfold mem. rewrite existsb_exists. split.
  - intros [y [Hy Heq]]. apply String.eqb_eq in Heq. now subst.
  - intros H. exists x. split; [exact H | apply String.eqb_refl].
Qed.

Lemma set_nil (l : list string) : set l = [] -> l = [].
Proof.
  destruct l as [|x l]; [reflexivity|]. intros H.
  assert (Hin : In x (set (x :: l))) by (apply nodup_In; now left).
  rewrite H in Hin. contradiction.
Qed.

Lemma In_set_diff (x : string) (a b : list string) :
  In x (set_diff a b) <-> In x a /\ ~ In x b.
Proof.
  unfold set_diff. rewrite filter_In. split.
  - intros [Ha Hb]. split; [exact Ha|]. intros Hin.
    apply mem_In in Hin. rewrite Hin in Hb. discriminate.
  - intros [Ha Hb]. split; [exact Ha|].
    destruct (mem x b) eqn:E; [|reflexivity].
    apply mem_In in E. contradiction.
Qed.

(** The list in the schema warning holds exactly the expected columns that
    the frame lacks, each once, in ascending order. *)
Lemma missing_columns_spec (df : DataFrame) :
  (forall c, In c (missing_columns df)
             <-> In c EXPECTED_COLUMNS /\ ~ In c (columns df))
  /\ NoDup (missing_columns df).
Proof.
  unfold missing_columns. split.
  - intros c. split.
    + intros H. apply (Permutation_in _ (sorted_perm _ _)) in H.
      apply In_set_diff in H. unfold set in H. now rewrite !nodup_In in H.
    + intros H. apply (Permutation_in _ (Permutation_sym (sorted_perm _ _))).
      apply In_set_diff. unfold set. now rewrite !nodup_In.
  - apply (Permutation_NoDup (Permutation_sym (sorted_perm _ _))).
    unfold set_diff. apply NoDup_filter. apply NoDup_nodup.
Qed.

Lemma all_expected_missing (df : DataFrame) :
  columns df = [] ->
  schema_events df = [Log WARNING (MissingColumns (sorted String.leb EXPECTED_COLUMNS))].
Proof.
  intros H. unfold schema_events, missing_columns. rewrite H. reflexivity.
Qed.

(** ** Validation *)

Section Validation.

Variable W : Type.

Lemma validate_row_count_run (df : DataFrame) (s : State W) :
  validate_row_count df s
  = if df_len df <? MIN_ROW_COUNT
    then (Raise (ValidationError (row_count_message df)), s)
    else (Return tt, s).
Proof.
  unfold validate_row_count. destruct (df_len df <? MIN_ROW_COUNT); reflexivity.
Qed.

Lemma validate_schema_run (df : DataFrame) (s : State W) :
  validate_schema df s
  = (if is_empty (columns df) then Raise (ValidationError no_columns_message)
     else Return tt,
     extend s (schema_events df)).
Proof.
  unfold validate_schema, schema_events, missing_columns.
  assert (Hlen : (len (set (columns df)) =? 0) = is_empty (columns df)).
  { rewrite <- is_empty_len. destruct (columns df) as [|c l] eqn:E; [reflexivity|].
    destruct (set (c :: l)) eqn:Es; [|reflexivity].
    apply set_nil in Es. discriminate. }
  remember (set_diff (set EXPECTED_COLUMNS) (set (columns df))) as missing.
  unfold bind. rewrite Hlen.
  destruct (is_empty missing); destruct (is_empty (columns df)); run;
    rewrite ?app_nil_r; try reflexivity; now destruct s.
Qed.

Lemma np_true_divide_run (n d : Z) (s : State W) :
  d <> 0 ->
  np_true_divide n d s = (Return (SFdiv prec emax (of_int n) (of_int d)), s).
Proof.
  intros Hd. unfold np_true_divide. apply Z.eqb_neq in Hd. now rewrite Hd.
Qed.

Lemma critical_of_cons (df : DataFrame) (col : string) (cols : list string) :
  critical_of df (col :: cols)
  = (if np_gtb (null_percentage_of df col) MAX_NULL_PERCENTAGE
     then [(col, null_percentage_of df col)] else [])
    ++ critical_of df cols.
Proof.
  unfold critical_of. cbn [filter]. unfold high_null at 1.
  destruct (np_gtb (null_percentage_of df col) MAX_NULL_PERCENTAGE); reflexivity.
Qed.

Lemma null_loop_run (df : DataFrame) :
  df_len df <> 0 ->
  forall (cols : list string) (null_report : list ReportRow)
         (critical_failures : list (string * float64)) (s : State W),
    null_loop df cols null_report critical_failures s
    = (Return (null_report ++ map (report_row df) cols,
               critical_failures ++ critical_of df cols), s).
Proof.
  intros Hlen. induction cols as [|col cols IH]; intros null_report critical_failures s.
  - cbn [null_loop map]. unfold ret, critical_of. cbn [filter map].
    now rewrite !app_nil_r.
  - cbn [null_loop map]. unfold bind at 1. rewrite np_true_divide_run by exact Hlen.
    rewrite IH, critical_of_cons. fold (null_percentage_of df col).
    fold (report_row df col). rewrite <- !app_assoc.
    destruct (np_gtb (null_percentage_of df col) MAX_NULL_PERCENTAGE);
      cbn [app]; rewrite <- ?app_assoc; reflexivity.
Qed.

Lemma validate_null_checks_run (df : DataFrame) (s : State W) :
  df_len df <> 0 ->
  columns df <> [] ->
  validate_null_checks df s = (Return tt, extend s (null_events df)).
Proof.
  intros Hlen Hcols. unfold validate_null_checks, null_events.
  unfold bind at 1. rewrite null_loop_run by exact Hlen. simpl.
  destruct (columns df) as [|c cols] eqn:E; [congruence|].
  simpl map. simpl is_empty. run.
  destruct (is_empty (critical_of df (c :: cols))); simpl;
    rewrite <- ?app_assoc; reflexivity.
Qed.

(** The three ways [validate_data] ends. *)
Lemma validate_data_too_few_rows (df : DataFrame) (s : State W) :
  df_len df < MIN_ROW_COUNT ->
  validate_data df s
  = (Return (false, [row_count_message df]),
     extend s [Log ERROR (ValidationFailed (ValidationError (row_count_message df)))]).
Proof.
  intros Hlen. apply Z.ltb_lt in Hlen.
  unfold validate_data. unfold try_except, bind at 1.
  rewrite validate_row_count_run, Hlen. reflexivity.
Qed.

Lemma validate_data_no_columns (df : DataFrame) (s : State W) :
  MIN_ROW_COUNT <= df_len df ->
  columns df = [] ->
  validate_data df s
  = (Return (false, [no_columns_message]),
     extend s (schema_events df
               ++ [Log ERROR (ValidationFailed (ValidationError no_columns_message))])).
Proof.
  intros Hlen Hcols. apply Z.ltb_ge in Hlen.
  unfold validate_data. unfold try_except, bind at 1.
  rewrite validate_row_count_run, Hlen. unfold bind at 1.
  rewrite validate_schema_run, Hcols. simpl is_empty. cbv iota.
  run. rewrite <- app_assoc. reflexivity.
Qed.

Lemma validate_data_passes (df : DataFrame) (s : State W) :
  MIN_ROW_COUNT <= df_len df ->
  columns df <> [] ->
  validate_data df s
  = (Return (true, []), extend s (schema_events df ++ null_events df)).
Proof.
  intros Hlen Hcols.
  assert (Hnz : df_len df <> 0) by (unfold MIN_ROW_COUNT in Hlen; lia).
  apply Z.ltb_ge in Hlen.
  unfold validate_data. unfold try_except, bind at 1.
  rewrite validate_row_count_run, Hlen. unfold bind at 1.
  rewrite validate_schema_run.
  destruct (columns df) as [|c cols] eqn:E; [congruence|]. simpl is_empty. cbv iota.
  unfold bind at 1. rewrite validate_null_checks_run; [|exact Hnz | rewrite E; discriminate].
  unfold ret. now rewrite extend_extend.
Qed.

End Validation.

(** ** The null report *)

Ltac compare_cases :=
  repeat match goal with
         | |- context [Pos.compare_cont Eq ?a ?b] =>
             change (Pos.compare_cont Eq a b) with (Pos.compare a b)
         | |- context [Z.compare ?a ?b] => destruct (Z.compare_spec a b)
         | |- context [Pos.compare ?a ?b] => destruct (Pos.compare_spec a b)
         end.

Lemma np_geb_key (x y : float64) :
  np_geb x y = true <-> key_le (float_key y) (float_key x).
Proof.
  destruct x as [[|]|[|]| |[|] mx ex], y as [[|]|[|]| |[|] my ey];
    unfold np_geb, SFleb, SFcompare, float_key, key_le;
    compare_cases; cbn [CompOpp];
    (split; intros Hxy; [try discriminate Hxy; lia | try reflexivity; exfalso; lia]).
Qed.

Lemma np_geb_total (x y : float64) : np_geb x y = true \/ np_geb y x = true.
Proof.
  rewrite !np_geb_key. destruct (float_key x) as [[a1 a2] a3].
  destruct (float_key y) as [[b1 b2] b3]. unfold key_le. lia.
Qed.

Lemma np_geb_trans (x y z : float64) :
  np_geb x y = true -> np_geb y z = true -> np_geb x z = true.
Proof.
  rewrite !np_geb_key. destruct (float_key x) as [[a1 a2] a3].
  destruct (float_key y) as [[b1 b2] b3]. destruct (float_key z) as [[c1 c2] c3].
  unfold key_le. lia.
Qed.

(** What the code computes is what the report is said to hold. *)
Lemma isna_sum_null_cells (df : DataFrame) (col : string) :
  isna_sum df col = null_cells df col.
Proof. reflexivity. Qed.

Lemma null_percentage_of_float (df : DataFrame) (col : string) :
  null_percentage_of df col = float_percentage (null_cells df col) (df_len df).
Proof. reflexivity. Qed.

Lemma round_2 (x : float64) : round x 2 = rounded2 x.
Proof. reflexivity. Qed.

Lemma critical_of_high_null_columns (df : DataFrame) :
  critical_of df (columns df) = high_null_columns df.
Proof. reflexivity. Qed.

Lemma isna_sum_bounds (df : DataFrame) (col : string) :
  0 <= isna_sum df col <= df_len df.
Proof.
  unfold isna_sum, df_len, len. pose proof (filter_length_le (isna col) (rows df)). lia.
Qed.

Lemma StronglySorted_weaken {A} (R R' : A -> A -> Prop) (P : A -> Prop) (l : list A) :
  (forall a b, P a -> P b -> R a b -> R' a b) ->
  Forall P l ->
  StronglySorted R l ->
  StronglySorted R' l.
Proof.
  intros Himp HP Hs. induction Hs as [|a l Hs IH Ha]; [constructor|].
  inversion HP as [|? ? Pa Pl]; subst. constructor; [now apply IH|].
  rewrite Forall_forall in *. intros b Hb. apply Himp; auto.
Qed.

(** The frames the pipeline builds have distinct column labels. *)
Lemma add_key_NoDup (cols : list string) (k : string) :
  NoDup cols -> NoDup (add_key cols k).
Proof.
  intros H. unfold add_key. destruct (existsb (String.eqb k) cols) eqn:E; [exact H|].
  apply (Permutation_NoDup (Permutation_cons_append cols k)).
  constructor; [|exact H]. intros Hin. apply mem_In in Hin. unfold mem in Hin. congruence.
Qed.

Lemma pd_DataFrame_NoDup (data : list Dict) : NoDup (columns (pd_DataFrame data)).
Proof.
  unfold pd_DataFrame. cbn [columns].
  assert (Hkeys : forall (ks cols : list string),
             NoDup cols -> NoDup (fold_left add_key ks cols)).
  { induction ks as [|k ks IH]; intros cols H; [exact H|].
    cbn [fold_left]. apply IH. now apply add_key_NoDup. }
  assert (Hrows : forall (rs : list Dict) (cols : list string),
             NoDup cols ->
             NoDup (fold_left (fun cols r => fold_left add_key (map fst r) cols) rs cols)).
  { induction rs as [|r rs IH]; intros cols H; [exact H|].
    cbn [fold_left]. apply IH. now apply Hkeys. }
  apply Hrows. constructor.
Qed.

(** The report the null check sorts: one row per column, in descending
    order, each row with the count and the rounded percentage of its
    column. *)
Lemma null_report_spec (df : DataFrame) :
  Permutation
    (map column (sorted by_null_percentage_desc (map (report_row df) (columns df))))
    (columns df)
  /\ StronglySorted percentage_ge
       (sorted by_null_percentage_desc (map (report_row df) (columns df)))
  /\ Forall (fun r =>
               null_count r = null_cells df (column r)
               /\ 0 <= null_count r <= df_len df
               /\ null_percentage r
                  = rounded2 (float_percentage (null_count r) (df_len df)))
            (sorted by_null_percentage_desc (map (report_row df) (columns df))).
Proof.
  split; [|split].
  - rewrite (Permutation_map column (sorted_perm _ _)), map_map.
    change (fun x : string => column (report_row df x)) with (fun x : string => x).
    now rewrite map_id.
  - eapply StronglySorted_weaken with (P := fun _ => True);
      [| apply Forall_forall; intros; exact I |].
    2: { apply sorted_sorted; unfold by_null_percentage_desc; intros.
         - apply np_geb_total.
         - eapply np_geb_trans; eauto. }
    intros a b _ _ Hab. unfold by_null_percentage_desc, np_geb in Hab.
    unfold percentage_ge. destruct (null_percentage b); auto.
  - apply (Permutation_Forall (Permutation_sym (sorted_perm _ _))).
    apply Forall_forall. intros r Hr. apply in_map_iff in Hr.
    destruct Hr as [col [<- _]]. unfold report_row. cbn [null_count column null_percentage].
    rewrite round_2, null_percentage_of_float, isna_sum_null_cells.
    split; [reflexivity|]. split; [|reflexivity].
    rewrite <- isna_sum_null_cells. apply isna_sum_bounds.
Qed.

Section ValidationClaims.

Variable W : Type.


(** C3: a frame with fewer than [MIN_ROW_COUNT] rows fails validation with
    the message that names the row count and the required minimum; nothing
    else is checked or logged. *)
Theorem too_few_rows_fail (df : DataFrame) (s : State W) :
  df_len df < MIN_ROW_COUNT ->
  validate_data df s
  = (Return (false,
             [("Row count validation failed: " ++ str_of_int (df_len df)
               ++ " rows (minimum required: 100)")%string]),
     extend s [Log ERROR (ValidationFailed (ValidationError (row_count_message df)))]).
Proof. apply validate_data_too_few_rows. Qed.

Lemma is_empty_false_In {A} (x : A) (l : list A) : In x l -> is_empty l = false.
Proof. destruct l; [contradiction | reflexivity]. Qed.

(** C2 (amended): a frame with at least [MIN_ROW_COUNT] rows and at least one
    column that lacks some expected columns passes validation; the warning
    that lists exactly the missing expected columns is written to the log,
    and the returned list of warnings is empty.  A frame without columns
    fails.  The returned list is empty on success and holds the one failure
    message otherwise. *)
Theorem missing_columns_are_logged (df : DataFrame) (s : State W) :
  (MIN_ROW_COUNT <= df_len df ->
   columns df <> [] ->
   (exists c, In c EXPECTED_COLUMNS /\ ~ In c (columns df)) ->
   exists evs,
     validate_data df s
     = (Return (true, []),
        extend s (Log WARNING (MissingColumns (missing_columns df)) :: evs))
     /\ (forall c, In c (missing_columns df)
                   <-> In c EXPECTED_COLUMNS /\ ~ In c (columns df))
     /\ NoDup (missing_columns df))
  /\ (columns df = [] ->
      fst (validate_data df s) = Return (false, [row_count_message df])
      \/ fst (validate_data df s) = Return (false, [no_columns_message]))
  /\ (fst (validate_data df s) = Return (true, [])
      \/ exists msg, fst (validate_data df s) = Return (false, [msg])).
Proof.
  split; [|split].
  - intros Hlen Hcols [c [Hc1 Hc2]].
    rewrite validate_data_passes by assumption.
    exists (null_events df). split; [|apply missing_columns_spec].
    unfold schema_events.
    rewrite (@is_empty_false_In _ c); [reflexivity|].
    apply In_set_diff. unfold set. now rewrite !nodup_In.
  - intros Hcols. destruct (Z_lt_le_dec (df_len df) MIN_ROW_COUNT) as [H|H].
    + left. now rewrite validate_data_too_few_rows.
    + right. now rewrite validate_data_no_columns.
  - destruct (Z_lt_le_dec (df_len df) MIN_ROW_COUNT) as [H|H].
    + right. eexists. now rewrite validate_data_too_few_rows.
    + destruct (columns df) as [|c cols] eqn:E.
      * right. eexists. now rewrite validate_data_no_columns.
      * left. rewrite validate_data_passes; [reflexivity | exact H | rewrite E; discriminate].
Qed.

(** C10: a division by zero, which is what makes [np_true_divide] emit
    [RuntimeWarning], never happens inside [validate_data]: the null report
    is computed only for frames with at least [MIN_ROW_COUNT] rows. *)
Theorem null_check_never_divides_by_zero (df : DataFrame) (s : State W) :
  (forall n (s0 : State W), snd (np_true_divide n 0 s0) = extend s0 [RuntimeWarning])
  /\ exists evs,
      snd (validate_data df s) = extend s evs
      /\ filter is_runtime_warning evs = []
      /\ (existsb is_null_report evs = true ->
          MIN_ROW_COUNT <= df_len df /\ 0 < df_len df).
Proof.
  split; [reflexivity|].
  assert (Hs : filter is_runtime_warning (schema_events df) = []
               /\ existsb is_null_report (schema_events df) = false).
  { unfold schema_events. destruct (is_empty _); split; reflexivity. }
  destruct Hs as [Hs1 Hs2].
  destruct (Z_lt_le_dec (df_len df) MIN_ROW_COUNT) as [H|H].
  - rewrite validate_data_too_few_rows by exact H. eexists. split; [reflexivity|].
    split; [reflexivity|]. simpl. discriminate.
  - destruct (columns df) as [|c cols] eqn:E.
    + rewrite validate_data_no_columns by assumption. eexists. split; [reflexivity|].
      rewrite filter_app, existsb_app, Hs1, Hs2. split; [reflexivity|].
      simpl. discriminate.
    + rewrite validate_data_passes; [| exact H | rewrite E; discriminate].
      eexists. split; [reflexivity|]. rewrite filter_app, Hs1.
      split; [|intros _; unfold MIN_ROW_COUNT in *; lia].
      unfold null_events. simpl. destruct (is_empty _); reflexivity.
Qed.

End ValidationClaims.

(** ** Load and driver *)

Section Driver.

Variable W : Type.
Variable env : Env W.

Lemma http_only_ret {A} (a : A) : http_only (ret (W:=W) a).
Proof.
  intros s. exists []. rewrite extend_nil. repeat split; [constructor | discriminate].
Qed.

Lemma http_only_raise {A} (e : Exception) : http_only (raise (W:=W) (A:=A) e).
Proof.
  intros s. exists []. rewrite extend_nil. repeat split; [constructor | discriminate].
Qed.

Lemma http_only_unfinished {A} : http_only (unfinished (W:=W) (A:=A)).
Proof.
  intros s. exists []. rewrite extend_nil. repeat split; [constructor | discriminate].
Qed.

Lemma http_only_logger (level : Level) (msg : Message) :
  http_only (logger (W:=W) level msg).
Proof.
  intros s. exists [Log level msg]. repeat split; [repeat constructor | discriminate].
Qed.

Lemma http_only_bind {A B} (m : M W A) (k : A -> M W B) :
  http_only m -> (forall a, http_only (k a)) -> http_only (bind m k).
Proof.
  intros Hm Hk s. destruct (Hm s) as [evs1 [H1 [F1 N1]]]. unfold bind.
  destruct (m s) as [[a|e|c|] s1]; simpl in H1, N1; subst s1.
  - destruct (Hk a (extend s evs1)) as [evs2 [H2 [F2 N2]]].
    exists (evs1 ++ evs2). rewrite H2, extend_extend.
    repeat split; [now apply Forall_app | exact N2].
  - exists evs1. repeat split; [exact F1 | discriminate].
  - exfalso. now apply (N1 c).
  - exists evs1. repeat split; [exact F1 | discriminate].
Qed.

Lemma http_only_try_except {A} (body : M W A) (catches : Exception -> bool)
    (handler : Exception -> M W A) :
  http_only body -> (forall e, http_only (handler e)) ->
  http_only (try_except body catches handler).
Proof.
  intros Hm Hk s. destruct (Hm s) as [evs1 [H1 [F1 N1]]]. unfold try_except.
  destruct (body s) as [[a|e|c|] s1]; simpl in H1, N1; subst s1.
  - exists evs1. repeat split; [exact F1 | discriminate].
  - destruct (catches e).
    + destruct (Hk e (extend s evs1)) as [evs2 [H2 [F2 N2]]].
      exists (evs1 ++ evs2). rewrite H2, extend_extend.
      repeat split; [now apply Forall_app | exact N2].
    + exists evs1. repeat split; [exact F1 | discriminate].
  - exfalso. now apply (N1 c).
  - exists evs1. repeat split; [exact F1 | discriminate].
Qed.

Lemma http_only_fetch_brfss_data (limit offset : Z) (filters : Params) :
  http_only (fetch_brfss_data env limit offset filters).
Proof.
  unfold fetch_brfss_data.
  apply http_only_bind; [apply http_only_logger|]. intros _.
  apply http_only_try_except.
  - apply http_only_bind.
    + intros s. unfold invoke.
      destruct (requests_get env (request_params limit offset filters));
        eexists; (split; [reflexivity|]); split;
        try (repeat constructor); discriminate.
    + intros data. apply http_only_bind; [apply http_only_logger|].
      intros _. apply http_only_ret.
  - intros e. apply http_only_bind; [apply http_only_logger|].
    intros _. apply http_only_raise.
Qed.

Lemma http_only_fetch_loop (filters : Params) (max_records : option Z) (limit : Z) :
  forall (fuel : nat) (all_data : list Dict) (offset : Z),
    http_only (fetch_loop env fuel filters max_records limit all_data offset).
Proof.
  induction fuel as [|fuel IH]; intros all_data offset; [apply http_only_unfinished|].
  cbn [fetch_loop]. apply http_only_bind; [apply http_only_fetch_brfss_data|].
  intros data. destruct (is_empty data); [apply http_only_ret|].
  destruct (reached max_records (len (all_data ++ data))).
  - apply http_only_bind; [apply http_only_logger|]. intros _. apply http_only_ret.
  - destruct (len data <? limit); [apply http_only_ret | apply IH].
Qed.

Lemma http_only_fetch_all (fuel : nat) (filters : Params) (max_records : option Z) :
  http_only (fetch_all_brfss_data env fuel filters max_records).
Proof.
  unfold fetch_all_brfss_data.
  apply http_only_bind; [apply http_only_fetch_loop|]. intros all_data.
  apply http_only_bind; [apply http_only_logger|]. intros _. apply http_only_ret.
Qed.

Lemma grows_ret {A} (a : A) : grows (ret (W:=W) a).
Proof.
  intros s. repeat split; try discriminate. exists []. simpl. now rewrite app_nil_r.
Qed.

Lemma grows_logger (level : Level) (msg : Message) : grows (logger (W:=W) level msg).
Proof.
  intros s. repeat split; try discriminate. now exists [Log level msg].
Qed.

Lemma grows_invoke {A} (c : Call) (op : Op W A) : grows (invoke c op).
Proof.
  intros s. unfold invoke. destruct (op (warehouse s)) as [[e|a] w];
    repeat split; try discriminate; now exists [Invoke c].
Qed.

Lemma grows_construct {A} (r : Exception + A) : grows (construct (W:=W) r).
Proof.
  intros s. unfold construct. destruct r as [e|a]; repeat split; try discriminate;
    exists []; simpl; now rewrite app_nil_r.
Qed.

Lemma grows_bind {A B} (m : M W A) (k : A -> M W B) :
  grows m -> (forall a, grows (k a)) -> grows (bind m k).
Proof.
  intros Hm Hk s. destruct (Hm s) as [[evs1 H1] [N1 U1]]. unfold bind.
  destruct (m s) as [[a|e|c|] s1]; simpl in H1, N1, U1.
  - destruct (Hk a s1) as [[evs2 H2] [N2 U2]]. repeat split; auto.
    exists (evs1 ++ evs2). now rewrite H2, H1, app_assoc.
  - repeat split; try discriminate. now exists evs1.
  - exfalso. now apply (N1 c).
  - congruence.
Qed.

Lemma grows_try_except {A} (body : M W A) (catches : Exception -> bool)
    (handler : Exception -> M W A) :
  grows body -> (forall e, grows (handler e)) -> grows (try_except body catches handler).
Proof.
  intros Hm Hk s. destruct (Hm s) as [[evs1 H1] [N1 U1]]. unfold try_except.
  destruct (body s) as [[a|e|c|] s1]; simpl in H1, N1, U1.
  - repeat split; try discriminate. now exists evs1.
  - destruct (catches e).
    + destruct (Hk e s1) as [[evs2 H2] [N2 U2]]. repeat split; auto.
      exists (evs1 ++ evs2). now rewrite H2, H1, app_assoc.
    + repeat split; try discriminate. now exists evs1.
  - exfalso. now apply (N1 c).
  - congruence.
Qed.

Lemma grows_ensure_dataset (dataset_ref : string) :
  grows (ensure_dataset env dataset_ref).
Proof.
  unfold ensure_dataset. apply grows_try_except.
  - apply grows_bind; [apply grows_invoke | intros _; apply grows_logger].
  - intros _. apply grows_bind; [apply grows_construct|]. intros _.
    apply grows_bind; [apply grows_invoke | intros _; apply grows_logger].
Qed.

Lemma bind_trace {A B} (m : M W A) (k : A -> M W B) (s : State W) :
  (forall a, grows (k a)) ->
  exists evs, trace (snd (bind m k s)) = trace (snd (m s)) ++ evs.
Proof.
  intros Hk. unfold bind. destruct (m s) as [[a|e|c|] s1]; simpl;
    try (exists []; now rewrite app_nil_r).
  destruct (Hk a s1) as [H _]. exact H.
Qed.

Lemma invoke_trace {A} (c : Call) (op : Op W A) (s : State W) :
  trace (snd (invoke c op s)) = trace s ++ [Invoke c].
Proof.
  unfold invoke. destruct (op (warehouse s)) as [[e|a] w]; reflexivity.
Qed.

Lemma grows_load_to_bigquery (df : DataFrame) (project_id dataset_id table_id : string)
    (credentials_path : option string) :
  grows (load_to_bigquery env df project_id dataset_id table_id credentials_path).
Proof.
  unfold load_to_bigquery. apply grows_bind.
  - destruct credentials_path as [path|]; [|apply grows_invoke].
    destruct (truthy_str (Some path)); [|apply grows_invoke].
    apply grows_bind; [apply grows_invoke | intros _; apply grows_invoke].
  - intros _. apply grows_bind; [apply grows_ensure_dataset|]. intros _.
    apply grows_bind; [apply grows_logger|]. intros _.
    apply grows_bind; [apply grows_invoke|]. intros _.
    apply grows_bind; [apply grows_invoke|]. intros _.
    apply grows_bind; [apply grows_invoke|]. intros table.
    apply grows_bind; [apply grows_logger|]. intros _. apply grows_ret.
Qed.

(** With the configured key file the load step starts by reading it. *)
Lemma load_starts_with_credentials (df : DataFrame) (s : State W) :
  exists evs,
    trace (snd (load_to_bigquery env df PROJECT_ID DATASET_ID TABLE_ID
                  (Some SERVICE_ACCOUNT_KEY) s))
    = trace s ++ Invoke (FromServiceAccountFile SERVICE_ACCOUNT_KEY) :: evs.
Proof.
  unfold load_to_bigquery.
  change (truthy_str (Some SERVICE_ACCOUNT_KEY)) with true. cbv iota.
  match goal with
  | |- context [bind (bind ?i ?k1) ?k2 s] =>
      destruct (@bind_trace _ _ (bind i k1) k2 s) as [evs2 H2];
      [| destruct (@bind_trace _ _ i k1 s) as [evs1 H1]; [intros _; apply grows_invoke|] ]
  end.
  - intros _. apply grows_bind; [apply grows_ensure_dataset|]. intros _.
    apply grows_bind; [apply grows_logger|]. intros _.
    apply grows_bind; [apply grows_invoke|]. intros _.
    apply grows_bind; [apply grows_invoke|]. intros _.
    apply grows_bind; [apply grows_invoke|]. intros table.
    apply grows_bind; [apply grows_logger|]. intros _. apply grows_ret.
  - exists (evs1 ++ evs2). rewrite H2, H1, invoke_trace, <- !app_assoc. reflexivity.
Qed.

Lemma after_load_trace (df : DataFrame) (r : Outcome Table * State W) :
  exists evs, trace (snd (after_load df r)) = trace (snd r) ++ evs.
Proof.
  destruct r as [[table|e|c|] s]; simpl; eexists; try reflexivity;
    now rewrite app_nil_r.
Qed.

(** [main], by the outcome of each stage. *)
Lemma main_run (fuel : nat) (s : State W) :
  main env fuel s
  = match fetch_all_brfss_data env fuel [] None s with
    | (Return data, s1) =>
        if is_empty data then (SystemExit 1, extend s1 [Log ERROR NoDataFetched])
        else
          match validate_data (pd_DataFrame data) s1 with
          | (Return (true, _), s2) =>
              after_load (pd_DataFrame data)
                (load_to_bigquery env (pd_DataFrame data) PROJECT_ID DATASET_ID TABLE_ID
                   (Some SERVICE_ACCOUNT_KEY) s2)
          | (Return (false, _), s2) => (SystemExit 1, extend s2 [Log ERROR ValidationExit])
          | (Raise e, s2) => (SystemExit 1, extend s2 [Log ERROR (PipelineFailed e)])
          | (SystemExit code, s2) => (SystemExit code, s2)
          | (Unfinished, s2) => (Unfinished, s2)
          end
    | (Raise e, s1) => (SystemExit 1, extend s1 [Log ERROR (PipelineFailed e)])
    | (SystemExit code, s1) => (SystemExit code, s1)
    | (Unfinished, s1) => (Unfinished, s1)
    end.
Proof.
  unfold main.
  change (if negb (SERVICE_ACCOUNT_KEY =? "path/to/your-service-account-key.json")%string
          then Some SERVICE_ACCOUNT_KEY else None) with (Some SERVICE_ACCOUNT_KEY).
  unfold try_except at 1. unfold bind at 1.
  destruct (fetch_all_brfss_data env fuel [] None s) as [[data|e|c|] s1];
    try reflexivity.
  destruct (is_empty data); [reflexivity|].
  unfold bind at 1. unfold ret at 1. unfold bind at 1.
  destruct (validate_data (pd_DataFrame data) s1) as [[[[|] ws]|e|c|] s2];
    try reflexivity.
  cbn [fst negb]. unfold bind at 1. unfold ret at 1. unfold bind at 1.
  destruct (load_to_bigquery env (pd_DataFrame data) PROJECT_ID DATASET_ID TABLE_ID
              (Some SERVICE_ACCOUNT_KEY) s2) as [[table|e|c|] s3]; reflexivity.
Qed.

End Driver.

Lemma validate_data_returns {W} (df : DataFrame) (s : State W) :
  exists passed ws evs,
    validate_data df s = (Return (passed, ws), extend s evs)
    /\ Forall (fun ev => is_bigquery_call ev = false) evs
    /\ (passed = true -> ws = []).
Proof.
  assert (Hs : Forall (fun ev => is_bigquery_call ev = false) (schema_events df)).
  { unfold schema_events. destruct (is_empty _); repeat constructor. }
  assert (Hn : Forall (fun ev => is_bigquery_call ev = false) (null_events df)).
  { unfold null_events. destruct (is_empty _); repeat constructor. }
  destruct (Z_lt_le_dec (df_len df) MIN_ROW_COUNT) as [H|H].
  - rewrite validate_data_too_few_rows by exact H.
    do 3 eexists. split; [reflexivity|]. split; [repeat constructor | discriminate].
  - destruct (columns df) as [|c cols] eqn:E.
    + rewrite validate_data_no_columns by assumption.
      do 3 eexists. split; [reflexivity|].
      split; [apply Forall_app; split; [exact Hs | repeat constructor] | discriminate].
    + rewrite validate_data_passes; [| exact H | rewrite E; discriminate].
      do 3 eexists. split; [reflexivity|].
      split; [apply Forall_app; now split | reflexivity].
Qed.

(** A frame that passes both gates passes validation; the log then holds
    the schema warning, if any, the null report and, if any column is above
    the threshold, the warning that lists those columns. *)
Lemma validate_data_passes_report {W} (df : DataFrame) (s : State W) :
  MIN_ROW_COUNT <= df_len df ->
  columns df <> [] ->
  exists null_df,
    validate_data df s
    = (Return (true, []),
       extend s (schema_events df
                 ++ Log INFO (NullReport null_df)
                    :: (if is_empty (high_null_columns df) then []
                        else [Log WARNING (HighNulls (high_null_columns df))])))
    /\ Permutation (map column null_df) (columns df).
Proof.
  intros Hlen Hcols. rewrite validate_data_passes by assumption.
  unfold null_events. rewrite critical_of_high_null_columns.
  eexists. split; [reflexivity | apply null_report_spec].
Qed.

(** The three ways the ensure step goes. *)
Lemma ensure_dataset_probe_raised {W} (env : Env W) (dataset_ref : string) (s : State W)
    (e : Exception) (w' : W) :
  get_dataset env dataset_ref (warehouse s) = (inl e, w') ->
  Dataset env dataset_ref = inr tt ->
  ensure_dataset env dataset_ref s
  = match create_dataset env dataset_ref "US" w' with
    | (inr _, w'') =>
        (Return tt,
         mkState (trace s ++ [Invoke (GetDataset dataset_ref);
                              Invoke (CreateDataset dataset_ref "US");
                              Log INFO (DatasetCreated dataset_ref)]) w'')
    | (inl e', w'') =>
        (Raise e',
         mkState (trace s ++ [Invoke (GetDataset dataset_ref);
                              Invoke (CreateDataset dataset_ref "US")]) w'')
    end.
Proof.
  intros Hget Hnew. unfold ensure_dataset, construct. run. rewrite Hget, Hnew. simpl.
  destruct (create_dataset env dataset_ref "US" w') as [[e'|[]] w'']; simpl;
    rewrite <- ?app_assoc; reflexivity.
Qed.

Lemma ensure_dataset_no_object {W} (env : Env W) (dataset_ref : string) (s : State W)
    (e : Exception) (w' : W) (e' : Exception) :
  get_dataset env dataset_ref (warehouse s) = (inl e, w') ->
  Dataset env dataset_ref = inl e' ->
  ensure_dataset env dataset_ref s
  = (Raise e', mkState (trace s ++ [Invoke (GetDataset dataset_ref)]) w').
Proof.
  intros Hget Hnew. unfold ensure_dataset, construct. run. rewrite Hget, Hnew. reflexivity.
Qed.


Section DriverClaims.

Variable W : Type.
Variable env : Env W.

(** C5: on a frame with distinct column labels that passes the row-count
    and zero-column gates, validation returns [passed = true] with no
    warning in the returned list; the columns whose null percentage (in
    binary64) exceeds [MAX_NULL_PERCENTAGE] are written to the log, in one
    warning after the null report, and nowhere else; and the driver goes on
    to the load step with the frame. *)
Theorem high_nulls_only_warn :
  (forall (df : DataFrame) (s : State W),
      MIN_ROW_COUNT <= df_len df ->
      columns df <> [] ->
      NoDup (columns df) ->
      exists null_df,
        validate_data df s
        = (Return (true, []),
           extend s (schema_events df
                     ++ Log INFO (NullReport null_df)
                        :: (if is_empty (high_null_columns df) then []
                            else [Log WARNING (HighNulls (high_null_columns df))])))
        /\ Permutation (map column null_df) (columns df))
  /\ (forall (fuel : nat) (s : State W) (data : list Dict) (s1 : State W),
         fetch_all_brfss_data env fuel [] None s = (Return data, s1) ->
         MIN_ROW_COUNT <= df_len (pd_DataFrame data) ->
         columns (pd_DataFrame data) <> [] ->
         exists evs,
           validate_data (pd_DataFrame data) s1 = (Return (true, []), extend s1 evs)
           /\ main env fuel s
              = after_load (pd_DataFrame data)
                  (load_to_bigquery env (pd_DataFrame data) PROJECT_ID DATASET_ID TABLE_ID
                     (Some SERVICE_ACCOUNT_KEY) (extend s1 evs))
           /\ In (Invoke (FromServiceAccountFile SERVICE_ACCOUNT_KEY))
                 (trace (snd (main env fuel s)))).
Proof.
  split.
  - intros df s Hlen Hcols _. now apply validate_data_passes_report.
  - intros fuel s data s1 Hfetch Hlen Hcols.
    exists (schema_events (pd_DataFrame data) ++ null_events (pd_DataFrame data)).
    assert (Hv : validate_data (pd_DataFrame data) s1
                 = (Return (true, []),
                    extend s1 (schema_events (pd_DataFrame data)
                               ++ null_events (pd_DataFrame data))))
      by now apply validate_data_passes.
    assert (Hmain : main env fuel s
         = after_load (pd_DataFrame data)
             (load_to_bigquery env (pd_DataFrame data) PROJECT_ID DATASET_ID TABLE_ID
                (Some SERVICE_ACCOUNT_KEY)
                (extend s1 (schema_events (pd_DataFrame data)
                            ++ null_events (pd_DataFrame data))))).
    { rewrite main_run, Hfetch.
      destruct data as [|d data'] eqn:E.
      - unfold df_len, len, MIN_ROW_COUNT in Hlen. simpl in Hlen. lia.
      - cbn [is_empty]. rewrite <- E in *. now rewrite Hv. }
    split; [exact Hv|]. split; [exact Hmain|]. rewrite Hmain.
    destruct (after_load_trace (pd_DataFrame data)
                (load_to_bigquery env (pd_DataFrame data) PROJECT_ID DATASET_ID TABLE_ID
                   (Some SERVICE_ACCOUNT_KEY)
                   (extend s1 (schema_events (pd_DataFrame data)
                               ++ null_events (pd_DataFrame data))))) as [evs2 H2].
    destruct (load_starts_with_credentials env (pd_DataFrame data)
                (extend s1 (schema_events (pd_DataFrame data)
                            ++ null_events (pd_DataFrame data)))) as [evs1 H1].
    rewrite H2, H1. apply in_or_app. left. apply in_or_app. right. now left.
Qed.

(** C7: when the driver ends, the exit status is 0 or 1; it is 0 exactly
    when extraction returned records, validation passed and the load
    returned; a failed request, an empty extraction, a failed validation and
    a failed load all end with status 1; after an empty extraction the
    failure is logged and nothing else happens: no validation, no call of
    the BigQuery client. *)
Theorem exit_status_of_main (fuel : nat) (s : State W) :
  (exit_status (fst (main env fuel s)) = Some 0
   \/ exit_status (fst (main env fuel s)) = Some 1
   \/ fst (main env fuel s) = Unfinished)
  /\ (exit_status (fst (main env fuel s)) = Some 0
      <-> exists data s1 s2 table s3,
          fetch_all_brfss_data env fuel [] None s = (Return data, s1)
          /\ data <> []
          /\ validate_data (pd_DataFrame data) s1 = (Return (true, []), s2)
          /\ load_to_bigquery env (pd_DataFrame data) PROJECT_ID DATASET_ID TABLE_ID
               (Some SERVICE_ACCOUNT_KEY) s2 = (Return table, s3))
  /\ (forall s1,
         fetch_all_brfss_data env fuel [] None s = (Return [], s1) ->
         exists evs,
           main env fuel s = (SystemExit 1, extend s (evs ++ [Log ERROR NoDataFetched]))
           /\ s1 = extend s evs
           /\ Forall (fun ev => is_bigquery_call ev = false) evs)
  /\ (forall e s1,
         fetch_all_brfss_data env fuel [] None s = (Raise e, s1) ->
         main env fuel s = (SystemExit 1, extend s1 [Log ERROR (PipelineFailed e)]))
  /\ (forall data s1 ws s2,
         fetch_all_brfss_data env fuel [] None s = (Return data, s1) ->
         data <> [] ->
         validate_data (pd_DataFrame data) s1 = (Return (false, ws), s2) ->
         exists evs,
           main env fuel s = (SystemExit 1, extend s (evs ++ [Log ERROR ValidationExit]))
           /\ Forall (fun ev => is_bigquery_call ev = false) evs)
  /\ (forall data s1 ws s2 e s3,
         fetch_all_brfss_data env fuel [] None s = (Return data, s1) ->
         data <> [] ->
         validate_data (pd_DataFrame data) s1 = (Return (true, ws), s2) ->
         load_to_bigquery env (pd_DataFrame data) PROJECT_ID DATASET_ID TABLE_ID
           (Some SERVICE_ACCOUNT_KEY) s2 = (Raise e, s3) ->
         main env fuel s = (SystemExit 1, extend s3 [Log ERROR (PipelineFailed e)])).
Proof.
  destruct (http_only_fetch_all env fuel [] None s) as [evs0 [Hs0 [Hf0 Hn0]]].
  assert (Hcases :
    (exit_status (fst (main env fuel s)) = Some 0
     /\ exists data s1 s2 table s3,
          fetch_all_brfss_data env fuel [] None s = (Return data, s1)
          /\ data <> []
          /\ validate_data (pd_DataFrame data) s1 = (Return (true, []), s2)
          /\ load_to_bigquery env (pd_DataFrame data) PROJECT_ID DATASET_ID TABLE_ID
               (Some SERVICE_ACCOUNT_KEY) s2 = (Return table, s3))
    \/ exit_status (fst (main env fuel s)) = Some 1
    \/ fst (main env fuel s) = Unfinished).
  { rewrite main_run.
    destruct (fetch_all_brfss_data env fuel [] None s) as [[data|e|c|] s1] eqn:Hfetch;
      simpl in Hn0; [| now (right; left) | exfalso; now apply (Hn0 c) | now (right; right)].
    destruct data as [|d data'] eqn:E; [now (right; left)|]. rewrite <- E in *.
    replace (is_empty data) with false by now rewrite E.
    destruct (validate_data_returns (pd_DataFrame data) s1)
      as [passed [ws [evs [Hv [_ Hws]]]]].
    rewrite Hv. destruct passed; [|now (right; left)].
    rewrite (Hws eq_refl) in *.
    destruct (grows_load_to_bigquery env (pd_DataFrame data) PROJECT_ID DATASET_ID
                TABLE_ID (Some SERVICE_ACCOUNT_KEY) (extend s1 evs)) as [_ [Hn Hu]].
    destruct (load_to_bigquery env (pd_DataFrame data) PROJECT_ID DATASET_ID TABLE_ID
                (Some SERVICE_ACCOUNT_KEY) (extend s1 evs)) as [[table|e|c|] s3] eqn:Hload;
      simpl in Hn, Hu; [| now (right; left) | exfalso; now apply (Hn c) | congruence].
    left. split; [reflexivity|].
    exists data, s1, (extend s1 evs), table, s3.
    repeat split; auto. rewrite E. discriminate. }
  split; [|split; [|split; [|split; [|split]]]].
  - destruct Hcases as [[H _]|[H|H]]; auto.
  - split.
    + intros H0. destruct Hcases as [[_ H]|[H|H]]; [exact H | congruence |].
      rewrite H in H0. discriminate.
    + intros [data [s1 [s2 [table [s3 [Hfetch [Hne [Hv Hload]]]]]]]].
      rewrite main_run, Hfetch.
      destruct data as [|d data']; [congruence|]. cbn [is_empty].
      rewrite Hv, Hload. reflexivity.
  - intros s1 Hfetch. rewrite Hfetch in Hs0. simpl in Hs0. subst s1.
    exists evs0. rewrite main_run, Hfetch. cbn [is_empty].
    rewrite extend_extend. auto.
  - intros e s1 Hfetch. now rewrite main_run, Hfetch.
  - intros data s1 ws s2 Hfetch Hne Hv. rewrite Hfetch in Hs0. simpl in Hs0. subst s1.
    destruct (validate_data_returns (pd_DataFrame data) (extend s evs0))
      as [passed [ws' [evs [Hv' [Hf _]]]]].
    rewrite Hv in Hv'. inversion Hv'; subst.
    exists (evs0 ++ evs). rewrite main_run, Hfetch.
    destruct data as [|d data']; [congruence|]. cbn [is_empty].
    rewrite Hv. rewrite !extend_extend, app_assoc.
    split; [reflexivity | now apply Forall_app].
  - intros data s1 ws s2 e s3 Hfetch Hne Hv Hload. rewrite main_run, Hfetch.
    destruct data as [|d data']; [congruence|]. cbn [is_empty].
    rewrite Hv, Hload. reflexivity.
Qed.


End DriverClaims.

(** ** Scenarios *)

(** C1, as stated, fails when the cap is 0: the source holds two records and
    both are returned. *)
Lemma max_records_zero_returns_more :
  fst (fetch_all_brfss_data (Sim.env [[Sim.r1; Sim.r2]]) 1 [] (Some 0) Sim.start)
  = Return [Sim.r1; Sim.r2]
  /\ ~ (len [Sim.r1; Sim.r2] <= 0).
Proof. split; [reflexivity | unfold len; simpl; lia]. Qed.


Lemma max_records_positive_cap_witness :
  0 < 1
  /\ 1 <= Z.of_nat 1 * 10000
  /\ exists evs,
      snd (fetch_all_brfss_data (Sim.env [[Sim.r1; Sim.r2]]) 1 [] (Some 1) Sim.start)
      = extend Sim.start evs
      /\ match fst (fetch_all_brfss_data (Sim.env [[Sim.r1; Sim.r2]]) 1 [] (Some 1)
                      Sim.start) with
         | Return l =>
             len l <= 1
             /\ exists sizes n,
                 fetched evs = sizes ++ [n]
                 /\ ((len l = 1 /\ total sizes < 1 <= total sizes + n)
                     \/ (len l < 1 /\ n < 10000 /\ len l = total sizes + n))
         | Raise e => exists params, requests_get (Sim.env [[Sim.r1; Sim.r2]]) params = inl e
         | SystemExit _ => False
         | Unfinished => False
         end.
Proof.
  split; [reflexivity|]. split; [discriminate|].
  apply (max_records_positive_cap (Sim.env [[Sim.r1; Sim.r2]]) [] (m:=1) 1 Sim.start);
    [reflexivity | discriminate].
Defined.

(** C2, as stated, fails: the frame has 100 rows and two columns and lacks
    expected columns, validation passes, and the returned list of warnings is
    empty. *)
Lemma missing_columns_not_returned :
  fst (validate_data (pd_DataFrame (repeat Sim.r1 100)) Sim.start) = Return (true, [])
  /\ MIN_ROW_COUNT <= df_len (pd_DataFrame (repeat Sim.r1 100))
  /\ columns (pd_DataFrame (repeat Sim.r1 100)) = ["year"; "topic"]
  /\ In "class" EXPECTED_COLUMNS
  /\ ~ In "class" (columns (pd_DataFrame (repeat Sim.r1 100))).
Proof.
  split; [vm_compute; reflexivity|]. split; [vm_compute; discriminate|].
  split; [vm_compute; reflexivity|]. split; [simpl; tauto|].
  vm_compute. intros [H|[H|[]]]; discriminate.
Qed.

Lemma missing_columns_are_logged_witness :
  exists evs,
    validate_data (pd_DataFrame (repeat Sim.r1 100)) Sim.start
    = (Return (true, []),
       extend Sim.start
         (Log WARNING (MissingColumns (missing_columns (pd_DataFrame (repeat Sim.r1 100))))
          :: evs))
    /\ (forall c, In c (missing_columns (pd_DataFrame (repeat Sim.r1 100)))
                  <-> In c EXPECTED_COLUMNS
                      /\ ~ In c (columns (pd_DataFrame (repeat Sim.r1 100))))
    /\ NoDup (missing_columns (pd_DataFrame (repeat Sim.r1 100))).
Proof.
  apply (proj1 (missing_columns_are_logged (pd_DataFrame (repeat Sim.r1 100)) Sim.start)).
  - vm_compute. discriminate.
  - vm_compute. discriminate.
  - exists "class". split; [simpl; tauto|].
    vm_compute. intros [H|[H|[]]]; discriminate.
Defined.

Lemma too_few_rows_fail_witness :
  df_len (pd_DataFrame [Sim.r1; Sim.r2]) < MIN_ROW_COUNT
  /\ validate_data (pd_DataFrame [Sim.r1; Sim.r2]) Sim.start
     = (Return (false, ["Row count validation failed: 2 rows (minimum required: 100)"]),
        extend Sim.start
          [Log ERROR
             (ValidationFailed
                (ValidationError
                   "Row count validation failed: 2 rows (minimum required: 100)"))]).
Proof.
  split; [reflexivity|].
  exact (too_few_rows_fail (pd_DataFrame [Sim.r1; Sim.r2]) Sim.start eq_refl).
Defined.

Lemma extraction_ends_at_short_page_witness :
  exists received rest all_data,
    [] ++ [[Sim.r1; Sim.r2]] = received ++ rest
    /\ received <> []
    /\ fetch_all_brfss_data (Sim.env [[Sim.r1; Sim.r2]]) 1 [] None Sim.start
       = (Return all_data,
          extend Sim.start (fetch_events 10000 [] 0 received
                            ++ [Log INFO (TotalExtracted (len all_data))]))
    /\ all_data = List.concat received
    /\ len all_data = total (map len received).
Proof.
  apply (proj1 (extraction_ends_at_short_page (Sim.env [[Sim.r1; Sim.r2]]) [])).
  - split; [reflexivity | exact I].
  - reflexivity.
  - simpl. lia.
Defined.

Lemma max_records_zero_is_no_cap_witness :
  exists received rest,
    [] ++ [[Sim.r1; Sim.r2]] = received ++ rest
    /\ received <> []
    /\ fst (fetch_all_brfss_data (Sim.env [[Sim.r1; Sim.r2]]) 1 [] (Some 0) Sim.start)
       = Return (List.concat received).
Proof.
  apply (proj2 (max_records_zero_is_no_cap (Sim.env [[Sim.r1; Sim.r2]]) [] 1 Sim.start)).
  - split; [reflexivity | exact I].
  - reflexivity.
  - simpl. lia.
Defined.


Lemma high_nulls_only_warn_witness :
  (exists null_df,
      validate_data (pd_DataFrame Sim.noisy) Sim.start
      = (Return (true, []),
         extend Sim.start
           (schema_events (pd_DataFrame Sim.noisy)
            ++ Log INFO (NullReport null_df)
               :: (if is_empty (high_null_columns (pd_DataFrame Sim.noisy)) then []
                   else [Log WARNING (HighNulls (high_null_columns (pd_DataFrame Sim.noisy)))])))
      /\ Permutation (map column null_df) (columns (pd_DataFrame Sim.noisy)))
  /\ In (Invoke (FromServiceAccountFile SERVICE_ACCOUNT_KEY))
        (trace (snd (main (Sim.env [Sim.noisy]) 1 Sim.start))).
Proof.
  split.
  - apply (proj1 (high_nulls_only_warn (Sim.env [Sim.noisy]))).
    + vm_compute. discriminate.
    + vm_compute. discriminate.
    + apply pd_DataFrame_NoDup.
  - destruct (proj2 (high_nulls_only_warn (Sim.env [Sim.noisy]))
                1%nat Sim.start Sim.noisy
                (snd (fetch_all_brfss_data (Sim.env [Sim.noisy]) 1 [] None Sim.start)))
      as [evs [_ [_ Hin]]].
    + vm_compute. reflexivity.
    + vm_compute. discriminate.
    + vm_compute. discriminate.
    + exact Hin.
Defined.

Lemma exit_status_of_main_witness :
  exists evs,
    main (Sim.env []) 1 Sim.start
    = (SystemExit 1, extend Sim.start (evs ++ [Log ERROR NoDataFetched]))
    /\ Forall (fun ev => is_bigquery_call ev = false) evs.
Proof.
  destruct (proj1 (proj2 (proj2 (exit_status_of_main (Sim.env []) 1 Sim.start)))
              (extend Sim.start (fetch_events 10000 [] 0 [[]]
                                 ++ [Log INFO (TotalExtracted 0)])) eq_refl)
    as [evs [Hmain [_ Hevs]]].
  exists evs. split; [exact Hmain | exact Hevs].
Defined.



(** Scenario A: pages of 10000, 10000 and 4000 records give 24000 records
    after three requests. *)
Example scenario_three_pages :
  let run := fetch_all_brfss_data
               (Sim.env [repeat Sim.r1 (Z.to_nat 10000); repeat Sim.r2 (Z.to_nat 10000);
                         repeat Sim.r1 (Z.to_nat 4000)])
               5 [] None Sim.start in
  (match fst run with Return l => len l | _ => -1 end) = 24000
  /\ List.length (Sim.http_calls (trace (snd run))) = 3%nat
  /\ fetched (trace (snd run)) = [10000; 10000; 4000].
Proof. vm_compute. repeat split. Qed.

(** Scenario B: an empty first page ends the run with status 1 before any
    call of the BigQuery client. *)
Example scenario_no_data :
  exit_status (fst (main (Sim.env []) 3 Sim.start)) = Some 1
  /\ filter is_bigquery_call (trace (snd (main (Sim.env []) 3 Sim.start))) = []
  /\ In (Log ERROR NoDataFetched) (trace (snd (main (Sim.env []) 3 Sim.start))).
Proof. vm_compute. repeat split. right. right. right. right. now left. Qed.

(** Scenario C: 50 rows fail validation; nothing is loaded. *)
Example scenario_fifty_rows :
  exit_status (fst (main (Sim.env [repeat Sim.r1 50]) 3 Sim.start)) = Some 1
  /\ filter is_bigquery_call (trace (snd (main (Sim.env [repeat Sim.r1 50]) 3 Sim.start)))
     = []
  /\ warehouse (snd (main (Sim.env [repeat Sim.r1 50]) 3 Sim.start)) = Sim.empty.
Proof. vm_compute. repeat split. Qed.

(** Scenario D: 500 rows with one column 60% null pass validation with one
    warning, and the table read back after the load has 500 rows. *)
Example scenario_sparse_column :
  let run := main (Sim.env [Sim.sparse]) 3 Sim.start in
  exit_status (fst run) = Some 0
  /\ filter (fun ev => match ev with Log WARNING _ => true | _ => false end)
            (trace (snd run))
     = [Log WARNING (HighNulls [("data_value", of_int 60)])]
  /\ dict_get "enduring-broker-483700-j3.candidate_adamdanisovszky_mental_health.raw_cdc_brfss"
              (Sim.tables (warehouse (snd run))) = Some 500.
Proof. vm_compute. repeat split. Qed.

(** With a client that refuses to create a dataset that exists, an ensure
    step whose probe fails on an existing dataset raises the client's error
    and leaves the warehouse as it was. *)
Example ensure_with_probe_down :
  ensure_dataset (Sim.env []) "p.d" (mkState [] (Sim.mkWarehouse ["p.d"] [] true))
  = (Raise (ClientError "Conflict"),
     mkState [Invoke (GetDataset "p.d"); Invoke (CreateDataset "p.d" "US")]
             (Sim.mkWarehouse ["p.d"] [] true)).
Proof. reflexivity. Qed.

(** Outside [validate_data] the null check does divide by zero on a frame
    without rows. *)
Example null_check_without_rows :
  validate_null_checks (mkDataFrame ["year"] []) Sim.start
  = (Return tt,
     extend Sim.start
       [RuntimeWarning; Log INFO (NullReport [mkRow "year" 0 S754_nan])]).
Proof. vm_compute. reflexivity. Qed.

(** The percentages of the report are binary64 values: 23 null cells in 160
    rows are 14.374999999999998 percent, reported as 14.37, where the exact
    quotient 14.375 would round to 14.38. *)
Example report_rounds_in_binary64 :
  validate_null_checks (pd_DataFrame Sim.uneven) Sim.start
  = (Return tt,
     extend Sim.start
       [Log INFO
          (NullReport
             [mkRow "topic" 160 (of_int 100);
              mkRow "class" 23 (SFdiv prec emax (of_int 1437) (of_int 100));
              mkRow "year" 0 (of_int 0)]);
        Log WARNING (HighNulls [("topic", of_int 100)])])
  /\ SFdiv prec emax (of_int 1437) (of_int 100)
     <> SFdiv prec emax (of_int 1438) (of_int 100).
Proof. split; [vm_compute; reflexivity | vm_compute; discriminate]. Qed.

(** The threshold is strict: of 100 rows, 50 null cells in a column are not
    reported, 51 are. *)
Example threshold_is_strict :
  SFltb MAX_NULL_PERCENTAGE (float_percentage 50 100) = false
  /\ SFltb MAX_NULL_PERCENTAGE (float_percentage 51 100) = true.
Proof. split; vm_compute; reflexivity. Qed.

(** A negative cap cuts records off the end of the first page. *)
Example negative_max_records :
  fst (fetch_all_brfss_data (Sim.env [[Sim.r1; Sim.r2]]) 1 [] (Some (-1)) Sim.start)
  = Return [Sim.r1].
Proof. reflexivity. Qed.

(** * Further properties of the code *)

(** ** Request parameters *)

Lemma dict_get_set {V} (k k' : string) (v : V) (d : list (string * V)) :
  dict_get k (dict_set k' v d) = if String.eqb k k' then Some v else dict_get k d.
Proof.
  induction d as [|[k0 v0] d IH]; simpl.
  - destruct (String.eqb k k'); reflexivity.
  - destruct (String.eqb k' k0) eqn:E0; simpl.
    + apply String.eqb_eq in E0. subst k0.
      destruct (String.eqb k k'); reflexivity.
    + destruct (String.eqb k k0) eqn:E1.
      * apply String.eqb_eq in E1. subst k0.
        rewrite String.eqb_sym, E0. reflexivity.
      * exact IH.
Qed.

Lemma dict_get_None {V} (k : string) (d : list (string * V)) :
  ~ In k (map fst d) -> dict_get k d = None.
Proof.
  induction d as [|[k0 v0] d IH]; simpl; [reflexivity|]. intros H.
  destruct (String.eqb k k0) eqn:E.
  - apply String.eqb_eq in E. subst. tauto.
  - apply IH. tauto.
Qed.

Lemma dict_get_update {V} (k : string) (other : list (string * V)) :
  NoDup (map fst other) ->
  forall d,
    dict_get k (dict_update d other)
    = match dict_get k other with
      | Some v => Some v
      | None => dict_get k d
      end.
Proof.
  unfold dict_update.
  induction other as [|[k' v'] other IH]; intros Hnd d; simpl; [reflexivity|].
  inversion Hnd as [|? ? Hnotin Hnd']; subst.
  rewrite IH by exact Hnd'. rewrite dict_get_set.
  destruct (String.eqb k k') eqn:E.
  - apply String.eqb_eq in E. subst k'.
    now rewrite (dict_get_None _ _ Hnotin).
  - reflexivity.
Qed.

(** X1: the parameters of a page request are the filters, and [$limit] and
    [$offset] where no filter has that name: a filter overrides them. *)
Theorem request_params_lookup (limit offset : Z) (filters : Params) (k : string) :
  NoDup (map fst filters) ->
  dict_get k (request_params limit offset filters)
  = match dict_get k filters with
    | Some v => Some v
    | None => dict_get k [("$limit", PInt limit); ("$offset", PInt offset)]
    end.
Proof.
  intros Hnd. unfold request_params.
  destruct filters as [|f fs]; [reflexivity|]. cbn [is_empty].
  now apply dict_get_update.
Qed.

Lemma offset_overridden (filters : Params) (o1 o2 : param) :
  In "$offset" (map fst filters) ->
  forall (x : param) (extras : Params),
    fold_left (fun acc kv => dict_set (fst kv) (snd kv) acc) filters
      (("$limit", x) :: ("$offset", o1) :: extras)
    = fold_left (fun acc kv => dict_set (fst kv) (snd kv) acc) filters
        (("$limit", x) :: ("$offset", o2) :: extras).
Proof.
  induction filters as [|[k v] filters IH]; intros Hin x extras; [contradiction|].
  cbn [fold_left fst snd dict_set].
  destruct (String.eqb k "$limit") eqn:E1.
  - apply String.eqb_eq in E1. subst k.
    apply IH. destruct Hin as [Hin|Hin]; [discriminate Hin | exact Hin].
  - destruct (String.eqb k "$offset") eqn:E2; [reflexivity|].
    apply IH. destruct Hin as [Hin|Hin]; [|exact Hin].
    simpl in Hin. subst k. rewrite String.eqb_refl in E2. discriminate.
Qed.

(** X2: with a filter named [$offset], the request does not depend on the
    offset the loop has reached: every page request is the same request. *)
Theorem offset_filter_fixes_request (limit o1 o2 : Z) (filters : Params) :
  In "$offset" (map fst filters) ->
  request_params limit o1 filters = request_params limit o2 filters.
Proof.
  intros Hin. unfold request_params.
  destruct filters as [|f fs]; [contradiction|]. cbn [is_empty].
  unfold dict_update. now apply offset_overridden.
Qed.

(** ** The extraction loop *)

Section MoreExtraction.

Variable W : Type.
Variable env : Env W.

Lemma fetch_brfss_data_fails (limit offset : Z) (filters : Params) (e : Exception)
    (s : State W) :
  requests_get env (request_params limit offset filters) = inl e ->
  fetch_brfss_data env limit offset filters s
  = (Raise e, extend s (failed_fetch_events limit filters offset e)).
Proof.
  intros Hget. unfold fetch_brfss_data, failed_fetch_events. run. rewrite Hget. simpl.
  destruct (is_RequestException e); simpl; rewrite <- !app_assoc; reflexivity.
Qed.

Lemma slice_to_prefix {A} (l : list A) (m : Z) : exists rest, l = slice_to l m ++ rest.
Proof.
  unfold slice_to. destruct (0 <=? m); eexists; symmetry; apply firstn_skipn.
Qed.

Lemma reached_None_uncapped (max_records : option Z) :
  truthy_int max_records = false -> forall n, reached max_records n = None.
Proof.
  intros H n. unfold reached. destruct max_records as [m|]; [|reflexivity].
  now rewrite H.
Qed.

(** What a loop that returns has done. *)
Lemma fetch_loop_returns (filters : Params) (max_records : option Z) (limit : Z) :
  forall (fuel : nat) (all_data : list Dict) (offset : Z) (s : State W)
         (l : list Dict) (s' : State W),
    fetch_loop env fuel filters max_records limit all_data offset s = (Return l, s') ->
    exists received extra,
      serves env limit filters offset received
      /\ received <> []
      /\ s' = extend s (fetch_events limit filters offset received ++ extra)
      /\ ((extra = [] /\ l = all_data ++ List.concat received)
          \/ exists m,
              reached max_records (len (all_data ++ List.concat received)) = Some m
              /\ extra = [Log INFO (ReachedMaxRecords m)]
              /\ l = slice_to (all_data ++ List.concat received) m).
Proof.
  induction fuel as [|fuel IH]; intros all_data offset s l s' Hrun; [discriminate|].
  destruct (requests_get env (request_params limit offset filters)) as [e|data] eqn:Hget.
  { destruct (@fetch_loop_error W env fuel filters max_records limit all_data offset e s Hget)
      as [evs [H _]]. congruence. }
  destruct data as [|d l0] eqn:E.
  { rewrite (@fetch_loop_empty_page W env _ _ _ _ _ _ _ Hget) in Hrun.
    inversion Hrun; subst. exists [[]], [].
    split; [split; [exact Hget | exact I]|]. split; [discriminate|].
    split; [now rewrite app_nil_r|].
    left. split; [reflexivity|]. simpl. now rewrite app_nil_r. }
  rewrite <- E in *. assert (Hne : data <> []) by (rewrite E; discriminate).
  destruct (reached max_records (len (all_data ++ data))) as [m|] eqn:Hcap.
  { rewrite (@fetch_loop_cap_reached W env fuel filters max_records limit all_data data
               offset m s Hget Hne Hcap) in Hrun.
    inversion Hrun; subst l s'. exists [data], [Log INFO (ReachedMaxRecords m)].
    split; [split; [exact Hget | exact I]|]. split; [discriminate|].
    split; [reflexivity|].
    right. exists m. simpl. rewrite app_nil_r. auto. }
  destruct (Z_lt_le_dec (len data) limit) as [Hshort|Hfull].
  { rewrite (@fetch_loop_short_page W env fuel filters max_records limit all_data data
               offset s Hget Hne Hcap Hshort) in Hrun.
    inversion Hrun; subst l s'. exists [data], [].
    split; [split; [exact Hget | exact I]|]. split; [discriminate|].
    split; [now rewrite app_nil_r|].
    left. simpl. now rewrite app_nil_r. }
  rewrite (@fetch_loop_continue W env fuel filters max_records limit all_data data
             offset s Hget Hne Hcap Hfull) in Hrun.
  destruct (IH _ _ _ _ _ Hrun) as [received [extra [Hs [_ [Hs' Hl]]]]].
  exists (data :: received), extra.
  split; [split; assumption|]. split; [discriminate|].
  split; [rewrite Hs', extend_extend; reflexivity|].
  cbn [List.concat]. rewrite app_assoc. exact Hl.
Qed.

(** X3: the records extraction returns are, in order, the first records of
    the pages the source served at offsets 0, 10000, ...; without an
    effective cap they are all of them. *)
Theorem extraction_returns_prefix (filters : Params) (max_records : option Z)
    (fuel : nat) (s : State W) (l : list Dict) (s' : State W) :
  fetch_all_brfss_data env fuel filters max_records s = (Return l, s') ->
  exists received rest evs,
    serves env 10000 filters 0 received
    /\ List.concat received = l ++ rest
    /\ (truthy_int max_records = false -> rest = [])
    /\ s' = extend s evs
    /\ fetched evs = map len received
    /\ requests_made evs = List.length received.
Proof.
  intros Hrun. rewrite fetch_all_of_loop in Hrun.
  destruct (fetch_loop env fuel filters max_records 10000 [] 0 s) as [[l0|e|c|] s0] eqn:Hloop;
    try discriminate.
  inversion Hrun; subst l0 s'. clear Hrun.
  destruct (fetch_loop_returns _ _ _ _ _ _ _ Hloop) as [received [extra [Hs [_ [Hs0 Hl]]]]].
  assert (Hreq : forall pages offset,
             requests_made (fetch_events 10000 filters offset pages) = List.length pages).
  { induction pages as [|p pages IHp]; intros offset; [reflexivity|].
    unfold requests_made in *. simpl. now rewrite IHp. }
  simpl in Hl. destruct Hl as [[He Hl]|[m [Hcap [He Hl]]]]; subst extra l s0.
  - exists received, [], (fetch_events 10000 filters 0 received ++ []
                          ++ [Log INFO (TotalExtracted (len (List.concat received)))]).
    rewrite extend_extend, app_nil_r. simpl app.
    repeat split; auto.
    + now rewrite <- app_assoc.
    + rewrite fetched_app, fetched_fetch_events. simpl. now rewrite app_nil_r.
    + unfold requests_made. rewrite filter_app, length_app. simpl.
      fold (requests_made (fetch_events 10000 filters 0 received)).
      rewrite Hreq. lia.
  - destruct (slice_to_prefix (List.concat received) m) as [rest Hrest].
    exists received, rest,
      (fetch_events 10000 filters 0 received ++ [Log INFO (ReachedMaxRecords m)]
       ++ [Log INFO (TotalExtracted (len (slice_to (List.concat received) m)))]).
    rewrite extend_extend.
    repeat split; auto.
    + intros Hu. rewrite (reached_None_uncapped _ Hu) in Hcap. discriminate.
    + now rewrite <- app_assoc.
    + rewrite fetched_app, fetched_fetch_events. simpl. now rewrite app_nil_r.
    + unfold requests_made. rewrite filter_app, length_app. simpl.
      fold (requests_made (fetch_events 10000 filters 0 received)).
      rewrite Hreq. lia.
Qed.

Lemma fetch_loop_raises (filters : Params) (max_records : option Z) (limit : Z)
    (e : Exception) :
  (forall n, reached max_records n = None) ->
  0 < limit ->
  forall (received : list (list Dict)) (fuel : nat) (all_data : list Dict) (offset : Z)
         (s : State W),
    serves env limit filters offset received ->
    Forall (fun p => limit <= len p) received ->
    requests_get env (request_params limit (offset + limit * len received) filters)
    = inl e ->
    (List.length received < fuel)%nat ->
    fetch_loop env fuel filters max_records limit all_data offset s
    = (Raise e,
       extend s (fetch_events limit filters offset received
                 ++ failed_fetch_events limit filters (offset + limit * len received) e)).
Proof.
  intros Hcap Hlimit.
  induction received as [|p received IH]; intros fuel all_data offset s Hs Hfull Hget Hfuel;
    (destruct fuel as [|fuel]; [simpl in Hfuel; lia|]).
  - change (len (@nil (list Dict))) with 0 in *.
    replace (offset + limit * 0) with offset in * by lia.
    cbn [fetch_loop]. unfold bind at 1.
    now rewrite (fetch_brfss_data_fails _ _ _ s Hget).
  - destruct Hs as [Hp Hs]. inversion Hfull as [|? ? Hpfull Hfull']; subst.
    assert (Hne : p <> []).
    { intros ->. change (len (@nil Dict)) with 0 in Hpfull. lia. }
    rewrite (@fetch_loop_continue W env fuel filters max_records limit all_data p
               offset s Hp Hne (Hcap _) Hpfull).
    assert (Hoff : offset + limit * len (p :: received)
                   = offset + limit + limit * len received).
    { unfold len. simpl List.length. lia. }
    rewrite Hoff in *.
    rewrite (IH fuel (all_data ++ p) (offset + limit) _ Hs Hfull' Hget);
      [|simpl in Hfuel; lia].
    rewrite extend_extend. reflexivity.
Qed.

(** X4: a failed page request aborts the extraction: the exception is
    raised to the caller, the records of the pages received before it are
    not returned, and no further request is made. *)
Theorem extraction_propagates_error (filters : Params) (max_records : option Z)
    (received : list (list Dict)) (e : Exception) (fuel : nat) (s : State W) :
  truthy_int max_records = false ->
  serves env 10000 filters 0 received ->
  Forall (fun p => 10000 <= len p) received ->
  requests_get env (request_params 10000 (10000 * len received) filters) = inl e ->
  (List.length received < fuel)%nat ->
  fetch_all_brfss_data env fuel filters max_records s
  = (Raise e,
     extend s (fetch_events 10000 filters 0 received
               ++ failed_fetch_events 10000 filters (10000 * len received) e)).
Proof.
  intros Hu Hs Hfull Hget Hfuel. rewrite fetch_all_of_loop.
  rewrite (@fetch_loop_raises filters max_records 10000 e (reached_None_uncapped _ Hu)
             ltac:(lia) received fuel [] 0 s Hs Hfull);
    [reflexivity | exact Hget | exact Hfuel].
Qed.

Lemma fetch_loop_unbounded (filters : Params) (max_records : option Z) (limit : Z) :
  (forall n, reached max_records n = None) ->
  0 < limit ->
  (forall offset,
      exists data,
        requests_get env (request_params limit offset filters) = inr data
        /\ limit <= len data) ->
  forall (fuel : nat) (all_data : list Dict) (offset : Z) (s : State W),
    fst (fetch_loop env fuel filters max_records limit all_data offset s) = Unfinished.
Proof.
  intros Hcap Hlimit Hsrc.
  induction fuel as [|fuel IH]; intros all_data offset s; [reflexivity|].
  destruct (Hsrc offset) as [data [Hget Hfull]].
  assert (Hne : data <> []).
  { intros ->. change (len (@nil Dict)) with 0 in Hfull. lia. }
  rewrite (@fetch_loop_continue W env fuel filters max_records limit all_data data
             offset s Hget Hne (Hcap _) Hfull).
  apply IH.
Qed.

(** X5: without an effective cap, extraction does not end on a source that
    answers every request with a full page. *)
Theorem extraction_unbounded (filters : Params) (max_records : option Z)
    (fuel : nat) (s : State W) :
  truthy_int max_records = false ->
  (forall offset,
      exists data,
        requests_get env (request_params 10000 offset filters) = inr data
        /\ 10000 <= len data) ->
  fst (fetch_all_brfss_data env fuel filters max_records s) = Unfinished.
Proof.
  intros Hu Hsrc. rewrite fetch_all_of_loop.
  pose proof (@fetch_loop_unbounded filters max_records 10000
                (reached_None_uncapped _ Hu) ltac:(lia) Hsrc fuel [] 0 s) as H.
  destruct (fetch_loop env fuel filters max_records 10000 [] 0 s) as [[l|e|c|] s0];
    simpl in H; try discriminate. reflexivity.
Qed.

(** X6: a filter named [$offset] together with a full first page keeps
    extraction without cap from ending: the same page is requested again and
    again. *)
Theorem offset_filter_never_ends (filters : Params) (max_records : option Z)
    (data : list Dict) (fuel : nat) (s : State W) :
  truthy_int max_records = false ->
  In "$offset" (map fst filters) ->
  requests_get env (request_params 10000 0 filters) = inr data ->
  10000 <= len data ->
  fst (fetch_all_brfss_data env fuel filters max_records s) = Unfinished.
Proof.
  intros Hu Hin Hget Hfull. rewrite fetch_all_of_loop.
  assert (Hsrc : forall offset,
             exists data0,
               requests_get env (request_params 10000 offset filters) = inr data0
               /\ 10000 <= len data0).
  { intros offset. exists data. split; [|exact Hfull].
    assert (Hp : forall o1 o2,
               request_params 10000 o1 filters = request_params 10000 o2 filters).
    { intros o1 o2. unfold request_params.
      destruct filters as [|f fs]; [contradiction|]. cbn [is_empty].
      unfold dict_update. now apply offset_overridden. }
    now rewrite (Hp offset 0). }
  pose proof (@fetch_loop_unbounded filters max_records 10000
                (reached_None_uncapped _ Hu) ltac:(lia) Hsrc fuel [] 0 s) as H.
  destruct (fetch_loop env fuel filters max_records 10000 [] 0 s) as [[l|e|c|] s0];
    simpl in H; try discriminate. reflexivity.
Qed.

Lemma requests_made_app (evs1 evs2 : list Event) :
  requests_made (evs1 ++ evs2) = (requests_made evs1 + requests_made evs2)%nat.
Proof. unfold requests_made. now rewrite filter_app, length_app. Qed.

Ltac count_requests :=
  match goal with
  | |- context [requests_made ?evs] =>
      let n := eval cbv in (requests_made evs) in
      change (requests_made evs) with n
  end.

Lemma fetch_loop_request_bound (filters : Params) (limit m : Z) :
  0 < m -> 0 < limit ->
  forall (fuel : nat) (all_data : list Dict) (offset : Z) (s : State W),
    len all_data < m ->
    exists evs,
      snd (fetch_loop env fuel filters (Some m) limit all_data offset s) = extend s evs
      /\ (Z.of_nat (requests_made evs) - 1) * limit <= m - len all_data - 1.
Proof.
  intros Hm Hlimit.
  induction fuel as [|fuel IH]; intros all_data offset s Hacc.
  { exists []. rewrite extend_nil. split; [reflexivity|]. count_requests. lia. }
  destruct (requests_get env (request_params limit offset filters)) as [e|data] eqn:Hget.
  { cbn [fetch_loop]. unfold bind at 1. rewrite (fetch_brfss_data_fails _ _ _ s Hget).
    eexists. split; [reflexivity|]. unfold failed_fetch_events.
    destruct (is_RequestException e); count_requests; lia. }
  destruct data as [|d l0] eqn:E.
  { rewrite (@fetch_loop_empty_page W env _ _ _ _ _ _ _ Hget).
    eexists. split; [reflexivity|]. count_requests. lia. }
  rewrite <- E in *. assert (Hne : data <> []) by (rewrite E; discriminate).
  pose proof (@reached_positive m (len (all_data ++ data)) Hm) as Hreached.
  pose proof (len_app all_data data) as Happ.
  destruct (len (all_data ++ data) >=? m) eqn:Hcmp.
  { rewrite (@fetch_loop_cap_reached W env fuel filters (Some m) limit all_data data
               offset m s Hget Hne Hreached).
    eexists. split; [reflexivity|]. count_requests. lia. }
  assert (Hlt : len (all_data ++ data) < m)
    by (rewrite Z.geb_leb in Hcmp; apply Z.leb_gt in Hcmp; lia).
  destruct (Z_lt_le_dec (len data) limit) as [Hshort|Hfull].
  { rewrite (@fetch_loop_short_page W env fuel filters (Some m) limit all_data data
               offset s Hget Hne Hreached Hshort).
    eexists. split; [reflexivity|]. count_requests. lia. }
  rewrite (@fetch_loop_continue W env fuel filters (Some m) limit all_data data
             offset s Hget Hne Hreached Hfull).
  destruct (IH (all_data ++ data) (offset + limit)
               (extend s (fetch_events limit filters offset [data])) Hlt)
    as [evs [Hsnd Hbound]].
  exists (fetch_events limit filters offset [data] ++ evs).
  rewrite Hsnd, extend_extend. split; [reflexivity|].
  rewrite requests_made_app. count_requests. nia.
Qed.

(** X7: a positive cap bounds the number of page requests by
    [ceil(max_records / 10000)], whatever the source answers. *)
Theorem positive_cap_bounds_requests (filters : Params) (m : Z) (fuel : nat) (s : State W) :
  0 < m ->
  exists evs,
    snd (fetch_all_brfss_data env fuel filters (Some m) s) = extend s evs
    /\ Z.of_nat (requests_made evs) <= (m + 9999) / 10000.
Proof.
  intros Hm. rewrite fetch_all_of_loop.
  destruct (@fetch_loop_request_bound filters 10000 m Hm ltac:(lia) fuel [] 0 s)
    as [evs [Hsnd Hbound]]; [unfold len; simpl; lia|].
  change (len (@nil Dict)) with 0 in Hbound.
  assert (Hle : Z.of_nat (requests_made evs) <= (m + 9999) / 10000).
  { apply Z.div_le_lower_bound; lia. }
  destruct (fetch_loop env fuel filters (Some m) 10000 [] 0 s) as [[l|e|c|] s0];
    simpl in Hsnd; subst s0; simpl.
  - exists (evs ++ [Log INFO (TotalExtracted (len l))]). rewrite extend_extend.
    split; [reflexivity|]. rewrite requests_made_app.
    change (requests_made [Log INFO (TotalExtracted (len l))]) with 0%nat. lia.
  - now exists evs.
  - now exists evs.
  - now exists evs.
Qed.

(** X8: a negative cap ends extraction at the first page that is not empty
    and drops the last [-max_records] records of that page. *)
Theorem negative_cap_cuts_first_page (filters : Params) (m : Z) (data : list Dict)
    (fuel : nat) (s : State W) :
  m < 0 ->
  requests_get env (request_params 10000 0 filters) = inr data ->
  data <> [] ->
  fetch_all_brfss_data env (S fuel) filters (Some m) s
  = (Return (firstn (Z.to_nat (len data + m)) data),
     extend s (fetch_events 10000 filters 0 [data]
               ++ [Log INFO (ReachedMaxRecords m);
                   Log INFO (TotalExtracted (len (firstn (Z.to_nat (len data + m)) data)))])).
Proof.
  intros Hm Hget Hne. rewrite fetch_all_of_loop.
  assert (Hcap : reached (Some m) (len ([] ++ data)) = Some m).
  { unfold reached, truthy_int.
    replace (m =? 0) with false by (symmetry; apply Z.eqb_neq; lia).
    pose proof (len_nonneg data). simpl app.
    replace (len data >=? m) with true; [reflexivity|].
    symmetry. rewrite Z.geb_leb. apply Z.leb_le. lia. }
  rewrite (@fetch_loop_cap_reached W env fuel filters (Some m) 10000 [] data 0 m s
             Hget Hne Hcap).
  simpl app. unfold slice_to.
  replace (0 <=? m) with false by (symmetry; apply Z.leb_gt; lia).
  rewrite extend_extend. simpl. reflexivity.
Qed.

End MoreExtraction.

(** ** Validation *)

Lemma set_diff_nil (a b : list string) :
  (forall x, In x a -> In x b) -> set_diff a b = [].
Proof.
  intros Hsub. unfold set_diff. induction a as [|x a IH]; [reflexivity|].
  simpl. assert (Hx : mem x b = true) by (apply mem_In, Hsub; now left).
  rewrite Hx. simpl. apply IH. intros y Hy. apply Hsub. now right.
Qed.

Section MoreValidation.

Variable W : Type.

(** X9: a frame that has every expected column passes the schema check
    without any warning, whatever other columns it has and in whatever
    order. *)
Theorem schema_accepts_superset (df : DataFrame) (s : State W) :
  (forall c, In c EXPECTED_COLUMNS -> In c (columns df)) ->
  validate_schema df s = (Return tt, s).
Proof.
  intros Hsub. rewrite validate_schema_run.
  assert (Hyear : In "year" (columns df)) by (apply Hsub; simpl; tauto).
  rewrite (is_empty_false_In _ _ Hyear).
  unfold schema_events. rewrite set_diff_nil; [simpl; now rewrite extend_nil|].
  intros x Hx. unfold set in *. rewrite nodup_In in *. now apply Hsub.
Qed.

(** X11: on a frame with distinct column labels, validation passes exactly
    when the frame has at least [MIN_ROW_COUNT] rows and at least one column;
    the content of the cells does not matter. *)
Theorem validation_verdict (df : DataFrame) (s : State W) :
  NoDup (columns df) ->
  (fst (validate_data df s) = Return (true, [])
   <-> MIN_ROW_COUNT <= df_len df /\ columns df <> [])
  /\ (fst (validate_data df s) <> Return (true, [])
      -> exists msg, fst (validate_data df s) = Return (false, [msg])).
Proof.
  intros _.
  destruct (Z_lt_le_dec (df_len df) MIN_ROW_COUNT) as [H|H].
  - rewrite validate_data_too_few_rows by exact H. simpl. split.
    + split; [discriminate | intros [H' _]; lia].
    + intros _. eauto.
  - destruct (columns df) as [|c cols] eqn:E.
    + rewrite validate_data_no_columns by assumption. simpl. split.
      * split; [discriminate | intros [_ H']; congruence].
      * intros _. eauto.
    + rewrite validate_data_passes; [| exact H | rewrite E; discriminate]. simpl. split.
      * split; [intros _; split; [exact H | discriminate] | reflexivity].
      * intros H'. congruence.
Qed.

End MoreValidation.

(** ** Load and driver *)

Section MoreDriver.

Variable W : Type.
Variable env : Env W.


Lemma bind_Return {A B} (m : M W A) (k : A -> M W B) (s : State W) (a : A)
    (s1 : State W) :
  m s = (Return a, s1) -> bind m k s = k a s1.
Proof. intros H. unfold bind. now rewrite H. Qed.

Lemma bind_Raise {A B} (m : M W A) (k : A -> M W B) (s : State W) (e : Exception)
    (s1 : State W) :
  m s = (Raise e, s1) -> bind m k s = (Raise e, s1).
Proof. intros H. unfold bind. now rewrite H. Qed.






(** X13: when the dataset can be neither found nor created, the load
    raises and no load job is started. *)
Theorem load_needs_dataset (df : DataFrame) (project_id dataset_id table_id : string)
    (credentials_path : option string) (s : State W) :
  (forall w, exists e w',
      get_dataset env (dataset_ref_of project_id dataset_id) w = (inl e, w')) ->
  (forall w, exists e w',
      create_dataset env (dataset_ref_of project_id dataset_id) "US" w = (inl e, w')) ->
  (exists e,
      fst (load_to_bigquery env df project_id dataset_id table_id credentials_path s)
      = Raise e)
  /\ exists evs,
      trace (snd (load_to_bigquery env df project_id dataset_id table_id
                    credentials_path s))
      = trace s ++ evs
      /\ Forall (fun ev => forall d r, ev <> Invoke (LoadTableFromDataframe d r)) evs.
Proof.
  intros Hprobe Hcreate. unfold load_to_bigquery.
  match goal with
  | |- context [bind ?m ?k s] => set (connect := m); set (rest := k)
  end.
  assert (Hc : exists evs,
             trace (snd (connect s)) = trace s ++ evs
             /\ Forall (fun ev => forall d r, ev <> Invoke (LoadTableFromDataframe d r)) evs
             /\ (forall code, fst (connect s) <> SystemExit code)
             /\ fst (connect s) <> Unfinished).
  { subst connect. unfold bind, invoke.
    destruct credentials_path as [path|]; [destruct (truthy_str (Some path))|].
    - destruct (from_service_account_file env path (warehouse s)) as [[e|[]] w1]; simpl.
      + eexists. split; [reflexivity|]. repeat split; try discriminate.
        repeat constructor; discriminate.
      + destruct (Client env project_id w1) as [[e|[]] w2]; simpl;
          (eexists; split; [rewrite <- app_assoc; reflexivity|];
           repeat split; try discriminate; repeat constructor; discriminate).
    - destruct (Client env project_id (warehouse s)) as [[e|[]] w2]; simpl;
        (eexists; split; [reflexivity|];
         repeat split; try discriminate; repeat constructor; discriminate).
    - destruct (Client env project_id (warehouse s)) as [[e|[]] w2]; simpl;
        (eexists; split; [reflexivity|];
         repeat split; try discriminate; repeat constructor; discriminate). }
  destruct Hc as [evs0 [Ht0 [Hf0 [Hn0 Hu0]]]].
  destruct (connect s) as [[[]|e|c|] s1] eqn:Hcs; simpl in Ht0, Hn0, Hu0.
  - rewrite (bind_Return connect rest s Hcs). subst rest. cbv beta.
    destruct (Hprobe (warehouse s1)) as [e [w' Hget]].
    destruct (Hcreate w') as [e' [w'' Hcr]].
    change (project_id ++ "." ++ dataset_id)%string
      with (dataset_ref_of project_id dataset_id).
    destruct (Dataset env (dataset_ref_of project_id dataset_id)) as [e0|[]] eqn:Hnew.
    + pose proof (ensure_dataset_no_object env (dataset_ref_of project_id dataset_id)
                    s1 Hget Hnew) as Hens.
      rewrite (bind_Raise _ _ _ Hens). simpl.
      split; [eauto|]. eexists. rewrite Ht0, <- app_assoc. split; [reflexivity|].
      apply Forall_app. split; [exact Hf0|]. repeat constructor; discriminate.
    + pose proof (ensure_dataset_probe_raised env (dataset_ref_of project_id dataset_id)
                    s1 Hget Hnew) as Hens.
      rewrite Hcr in Hens.
      rewrite (bind_Raise _ _ _ Hens). simpl.
      split; [eauto|]. eexists. rewrite Ht0, <- app_assoc. split; [reflexivity|].
      apply Forall_app. split; [exact Hf0|]. repeat constructor; discriminate.
  - rewrite (bind_Raise connect rest s Hcs).
    simpl. split; [eauto|]. exists evs0. split; [exact Ht0 | exact Hf0].
  - exfalso. now apply (Hn0 c).
  - congruence.
Qed.

Lemma emits_ret {A} (P : Event -> Prop) (a : A) : emits P (ret (W:=W) a).
Proof. intros s. exists []. simpl. rewrite app_nil_r. split; [reflexivity | constructor]. Qed.

Lemma emits_logger (P : Event -> Prop) (level : Level) (msg : Message) :
  P (Log level msg) -> emits P (logger (W:=W) level msg).
Proof. intros H s. exists [Log level msg]. split; [reflexivity | now constructor]. Qed.

Lemma emits_invoke {A} (P : Event -> Prop) (c : Call) (op : Op W A) :
  P (Invoke c) -> emits P (invoke c op).
Proof.
  intros H s. exists [Invoke c]. split; [apply invoke_trace | now constructor].
Qed.

Lemma emits_bind {A B} (P : Event -> Prop) (m : M W A) (k : A -> M W B) :
  emits P m -> (forall a, emits P (k a)) -> emits P (bind m k).
Proof.
  intros Hm Hk s. destruct (Hm s) as [evs1 [H1 F1]]. unfold bind.
  destruct (m s) as [[a|e|c|] s1]; simpl in H1; try (exists evs1; now split).
  destruct (Hk a s1) as [evs2 [H2 F2]]. exists (evs1 ++ evs2).
  rewrite H2, H1, app_assoc. split; [reflexivity | now apply Forall_app].
Qed.

Lemma emits_try_except {A} (P : Event -> Prop) (body : M W A)
    (catches : Exception -> bool) (handler : Exception -> M W A) :
  emits P body -> (forall e, emits P (handler e)) ->
  emits P (try_except body catches handler).
Proof.
  intros Hm Hk s. destruct (Hm s) as [evs1 [H1 F1]]. unfold try_except.
  destruct (body s) as [[a|e|c|] s1]; simpl in H1; try (exists evs1; now split).
  destruct (catches e); [|exists evs1; now split].
  destruct (Hk e s1) as [evs2 [H2 F2]]. exists (evs1 ++ evs2).
  rewrite H2, H1, app_assoc. split; [reflexivity | now apply Forall_app].
Qed.

Lemma emits_construct {A} (P : Event -> Prop) (r : Exception + A) :
  emits P (construct (W:=W) r).
Proof.
  intros s. exists []. unfold construct. destruct r as [e|a]; simpl;
    rewrite app_nil_r; (split; [reflexivity | constructor]).
Qed.

(** Every load job [load_to_bigquery] starts is for its own frame and table. *)
Lemma load_emits_own_frame (df : DataFrame) (project_id dataset_id table_id : string)
    (credentials_path : option string) :
  emits (fun ev => forall d r,
             ev = Invoke (LoadTableFromDataframe d r) ->
             d = df /\ r = table_ref_of project_id dataset_id table_id)
        (load_to_bigquery env df project_id dataset_id table_id credentials_path).
Proof.
  unfold load_to_bigquery, ensure_dataset.
  repeat first
    [ apply emits_bind; [|intros ?]
    | apply emits_try_except; [|intros ?]
    | apply emits_ret
    | apply emits_construct
    | apply emits_logger; intros d r Heq; discriminate Heq
    | apply emits_invoke; intros d r Heq;
      first [discriminate Heq | inversion Heq; subst; split; reflexivity]
    | destruct credentials_path as [path|]; [destruct (truthy_str (Some path))|] ].
Qed.

Lemma after_load_events (df : DataFrame) (r : Outcome Table * State W) :
  exists evs,
    trace (snd (after_load df r)) = trace (snd r) ++ evs
    /\ Forall (fun ev => is_bigquery_call ev = false) evs.
Proof.
  destruct r as [[table|e|c|] s]; simpl; eexists;
    (split; [try reflexivity; now rewrite app_nil_r | repeat constructor]).
Qed.

Lemma no_load_job (evs : list Event) (d : DataFrame) (r : string) :
  Forall (fun ev => is_bigquery_call ev = false) evs ->
  ~ In (Invoke (LoadTableFromDataframe d r)) evs.
Proof.
  intros Hf Hin. rewrite Forall_forall in Hf. apply Hf in Hin. discriminate.
Qed.

Lemma validate_data_true_inv (df : DataFrame) (s s' : State W) (ws : list string) :
  validate_data df s = (Return (true, ws), s') ->
  MIN_ROW_COUNT <= df_len df /\ columns df <> [].
Proof.
  intros Hv. destruct (Z_lt_le_dec (df_len df) MIN_ROW_COUNT) as [H|H].
  - rewrite validate_data_too_few_rows in Hv by exact H. discriminate.
  - split; [exact H|]. intros Hcols.
    rewrite validate_data_no_columns in Hv by assumption. discriminate.
Qed.

(** X14: in every run of the driver, a load job is started only for the
    frame built from the extracted records, only when that frame has at
    least [MIN_ROW_COUNT] rows and one column, and only into the configured
    table. *)
Theorem only_validated_frames_are_loaded (fuel : nat) (s : State W) :
  exists evs,
    trace (snd (main env fuel s)) = trace s ++ evs
    /\ forall df ref,
        In (Invoke (LoadTableFromDataframe df ref)) evs ->
        ref = table_ref_of PROJECT_ID DATASET_ID TABLE_ID
        /\ MIN_ROW_COUNT <= df_len df
        /\ columns df <> []
        /\ exists data s1,
            fetch_all_brfss_data env fuel [] None s = (Return data, s1)
            /\ df = pd_DataFrame data.
Proof.
  rewrite main_run.
  destruct (http_only_fetch_all env fuel [] None s) as [evs0 [Hs0 [Hf0 _]]].
  destruct (fetch_all_brfss_data env fuel [] None s) as [[data|e|c|] s1] eqn:Hfetch;
    simpl in Hs0; subst s1.
  2: { exists (evs0 ++ [Log ERROR (PipelineFailed e)]). simpl. rewrite app_assoc.
       split; [reflexivity|]. intros df ref Hin. exfalso.
       apply (@no_load_job (evs0 ++ [Log ERROR (PipelineFailed e)]) df ref);
         [apply Forall_app; split; [exact Hf0 | repeat constructor] | exact Hin]. }
  2: { exists evs0. split; [reflexivity|]. intros df ref Hin. exfalso.
       now apply (@no_load_job evs0 df ref Hf0 Hin). }
  2: { exists evs0. split; [reflexivity|]. intros df ref Hin. exfalso.
       now apply (@no_load_job evs0 df ref Hf0 Hin). }
  destruct (is_empty data).
  { exists (evs0 ++ [Log ERROR NoDataFetched]). simpl. rewrite app_assoc.
    split; [reflexivity|]. intros df ref Hin. exfalso.
    apply (@no_load_job (evs0 ++ [Log ERROR NoDataFetched]) df ref);
      [apply Forall_app; split; [exact Hf0 | repeat constructor] | exact Hin]. }
  destruct (validate_data_returns (pd_DataFrame data) (extend s evs0))
    as [passed [ws [evs1 [Hv [Hf1 Hws]]]]].
  rewrite Hv. destruct passed.
  2: { exists (evs0 ++ evs1 ++ [Log ERROR ValidationExit]). simpl.
       rewrite !app_assoc. split; [reflexivity|]. intros df ref Hin. exfalso.
       apply (@no_load_job ((evs0 ++ evs1) ++ [Log ERROR ValidationExit]) df ref);
         [|exact Hin].
       apply Forall_app. split; [now apply Forall_app | repeat constructor]. }
  destruct (@validate_data_true_inv _ _ _ _ Hv) as [Hlen Hcols].
  destruct (load_emits_own_frame (pd_DataFrame data) PROJECT_ID DATASET_ID TABLE_ID
              (Some SERVICE_ACCOUNT_KEY) (extend (extend s evs0) evs1))
    as [evsL [HtL HfL]].
  destruct (after_load_events (pd_DataFrame data)
              (load_to_bigquery env (pd_DataFrame data) PROJECT_ID DATASET_ID TABLE_ID
                 (Some SERVICE_ACCOUNT_KEY) (extend (extend s evs0) evs1)))
    as [evsA [HtA HfA]].
  exists (evs0 ++ evs1 ++ evsL ++ evsA). split.
  { rewrite HtA, HtL. simpl. now rewrite <- !app_assoc. }
  intros df ref Hin.
  apply in_app_or in Hin. destruct Hin as [Hin|Hin]; [exfalso; now apply (@no_load_job evs0 df ref Hf0 Hin)|].
  apply in_app_or in Hin. destruct Hin as [Hin|Hin]; [exfalso; now apply (@no_load_job evs1 df ref Hf1 Hin)|].
  apply in_app_or in Hin. destruct Hin as [Hin|Hin]; [|exfalso; now apply (@no_load_job evsA df ref HfA Hin)].
  rewrite Forall_forall in HfL. destruct (HfL _ Hin df ref eq_refl) as [-> ->].
  split; [reflexivity|]. split; [exact Hlen|]. split; [exact Hcols|].
  exists data, (extend s evs0). split; reflexivity.
Qed.

End MoreDriver.

Lemma request_params_lookup_witness :
  NoDup (map fst [("$limit", PInt 5)])
  /\ dict_get "$limit" (request_params 10000 0 [("$limit", PInt 5)]) = Some (PInt 5).
Proof.
  assert (H : NoDup (map fst [("$limit", PInt 5)])).
  { constructor; [intros [] | constructor]. }
  split; [exact H|].
  exact (request_params_lookup 10000 0 [("$limit", PInt 5)] "$limit" H).
Defined.

Lemma offset_filter_fixes_request_witness :
  request_params 10000 0 [("$offset", PInt 0)]
  = request_params 10000 10000 [("$offset", PInt 0)].
Proof.
  apply offset_filter_fixes_request. simpl. left. reflexivity.
Defined.

Lemma extraction_returns_prefix_witness :
  exists received rest evs,
    serves (Sim.env [[Sim.r1; Sim.r2]]) 10000 [] 0 received
    /\ List.concat received = [Sim.r1] ++ rest
    /\ (truthy_int (Some 1) = false -> rest = [])
    /\ snd (fetch_all_brfss_data (Sim.env [[Sim.r1; Sim.r2]]) 1 [] (Some 1) Sim.start)
       = extend Sim.start evs
    /\ fetched evs = map len received
    /\ requests_made evs = List.length received.
Proof.
  apply (@extraction_returns_prefix _ (Sim.env [[Sim.r1; Sim.r2]]) [] (Some 1) 1
           Sim.start [Sim.r1]).
  reflexivity.
Defined.

Lemma extraction_propagates_error_witness :
  fst (fetch_all_brfss_data
         (Sim.env_failing_after (repeat Sim.r1 (Z.to_nat 10000)) (RequestException "timeout"))
         2 [] None Sim.start)
  = Raise (RequestException "timeout").
Proof.
  rewrite (@extraction_propagates_error _
             (Sim.env_failing_after (repeat Sim.r1 (Z.to_nat 10000))
                (RequestException "timeout"))
             [] None [repeat Sim.r1 (Z.to_nat 10000)] (RequestException "timeout")
             2 Sim.start).
  - reflexivity.
  - reflexivity.
  - split; [reflexivity | exact I].
  - constructor; [vm_compute; discriminate | constructor].
  - reflexivity.
  - simpl. lia.
Defined.

Lemma extraction_unbounded_witness :
  fst (fetch_all_brfss_data (Sim.env_same_page (repeat Sim.r1 (Z.to_nat 10000)))
         3 [] None Sim.start)
  = Unfinished.
Proof.
  apply extraction_unbounded; [reflexivity|].
  intros offset. exists (repeat Sim.r1 (Z.to_nat 10000)).
  split; [reflexivity | vm_compute; discriminate].
Defined.

Lemma offset_filter_never_ends_witness :
  fst (fetch_all_brfss_data (Sim.env [repeat Sim.r1 (Z.to_nat 10000); [Sim.r2]])
         3 [("$offset", PInt 0)] None Sim.start)
  = Unfinished.
Proof.
  apply (@offset_filter_never_ends _
           (Sim.env [repeat Sim.r1 (Z.to_nat 10000); [Sim.r2]])
           [("$offset", PInt 0)] None (repeat Sim.r1 (Z.to_nat 10000)) 3 Sim.start).
  - reflexivity.
  - simpl. left. reflexivity.
  - reflexivity.
  - vm_compute. discriminate.
Defined.

Lemma positive_cap_bounds_requests_witness :
  exists evs,
    snd (fetch_all_brfss_data (Sim.env [[Sim.r1; Sim.r2]]) 1 [] (Some 1) Sim.start)
    = extend Sim.start evs
    /\ Z.of_nat (requests_made evs) <= (1 + 9999) / 10000.
Proof.
  apply (@positive_cap_bounds_requests _ (Sim.env [[Sim.r1; Sim.r2]]) [] 1 1 Sim.start).
  reflexivity.
Defined.

Lemma negative_cap_cuts_first_page_witness :
  fst (fetch_all_brfss_data (Sim.env [[Sim.r1; Sim.r2]]) 1 [] (Some (-1)) Sim.start)
  = Return [Sim.r1].
Proof.
  rewrite (@negative_cap_cuts_first_page _ (Sim.env [[Sim.r1; Sim.r2]]) [] (-1)
             [Sim.r1; Sim.r2] 0 Sim.start).
  - reflexivity.
  - reflexivity.
  - reflexivity.
  - discriminate.
Defined.

Lemma validation_verdict_witness :
  (fst (validate_data (pd_DataFrame Sim.noisy) Sim.start) = Return (true, [])
   <-> MIN_ROW_COUNT <= df_len (pd_DataFrame Sim.noisy)
       /\ columns (pd_DataFrame Sim.noisy) <> [])
  /\ (fst (validate_data (pd_DataFrame Sim.noisy) Sim.start) <> Return (true, [])
      -> exists msg,
        fst (validate_data (pd_DataFrame Sim.noisy) Sim.start) = Return (false, [msg])).
Proof.
  apply (@validation_verdict _ (pd_DataFrame Sim.noisy) Sim.start).
  apply pd_DataFrame_NoDup.
Defined.

Lemma schema_accepts_superset_witness :
  validate_schema (pd_DataFrame [Sim.full_row None]) Sim.start = (Return tt, Sim.start).
Proof.
  apply schema_accepts_superset. intros c H. exact H.
Defined.


Lemma load_needs_dataset_witness :
  (exists e,
      fst (load_to_bigquery Sim.env_no_dataset (pd_DataFrame [Sim.r1]) "p" "d" "t" None
             Sim.start) = Raise e)
  /\ exists evs,
      trace (snd (load_to_bigquery Sim.env_no_dataset (pd_DataFrame [Sim.r1])
                    "p" "d" "t" None Sim.start))
      = trace Sim.start ++ evs
      /\ Forall (fun ev => forall d r, ev <> Invoke (LoadTableFromDataframe d r)) evs.
Proof.
  apply (@load_needs_dataset _ Sim.env_no_dataset (pd_DataFrame [Sim.r1])
           "p" "d" "t" None Sim.start).
  - intros w. do 2 eexists. reflexivity.
  - intros w. do 2 eexists. reflexivity.
Defined.

